(** * The agentic retrieval loop of the search agent (src/index.ts)

    A shallow embedding of [SearchAgent]: the message handler, the query
    rewriting step, the search function handed to the model as a tool, the
    bounded retrieve-evaluate loop and the streamed synthesis.

    The language model, the structured-output call, the streaming call, the
    semantic search service and the clock are external: they are fields of an
    environment record and thread an abstract [World].  Everything the agent
    itself does (its locals, [this.state], [this.messages], the storage and
    the frames written to the connection) is explicit state. *)

From Stdlib Require Import String Ascii List ZArith QArith Qround Bool Lia.
Import ListNotations.
Close Scope Q_scope.
Open Scope nat_scope.
Open Scope string_scope.

Set Implicit Arguments.

(* ================================================================== *)
(** ** JavaScript values the agent relies on *)

Module Js.

(** Strings are sequences of code units below 256.  [String.prototype.trim]
    removes white space and line terminators at both ends; below 256 these
    are TAB, LF, VT, FF, CR, SP and NBSP. *)
Definition is_whitespace (c : ascii) : bool :=
  let n := nat_of_ascii c in
  ((9 <=? n)%nat && (n <=? 13)%nat) || (n =? 32)%nat || (n =? 160)%nat.

Fixpoint trimStart (s : string) : string :=
  match s with
  | EmptyString => EmptyString
  | String c s' => if is_whitespace c then trimStart s' else s
  end.

Fixpoint trimEnd (s : string) : string :=
  match s with
  | EmptyString => EmptyString
  | String c s' =>
      match trimEnd s' with
      | EmptyString => if is_whitespace c then EmptyString else String c EmptyString
      | t => String c t
      end
  end.

Definition trim (s : string) : string := trimEnd (trimStart s).

(** Truthiness of a string: every string but the empty one. *)
Definition truthy (s : string) : bool :=
  match s with
  | EmptyString => false
  | String _ _ => true
  end.

(** Truthiness of a possibly undefined string. *)
Definition truthy_opt (o : option string) : bool :=
  match o with
  | Some s => truthy s
  | None => false
  end.

(** [a || b] on a possibly undefined string [a]. *)
Definition or_else (a : option string) (b : string) : string :=
  match a with
  | Some s => if truthy s then s else b
  | None => b
  end.

(** [Math.round(x * 100) / 100], the number idealised as a rational;
    [Math.round] rounds halves up. *)
Definition round2 (x : Q) : Q :=
  (inject_Z (Qfloor (x * inject_Z 100 + (1 # 2))) / inject_Z 100)%Q.

(** [s.substring(0, n)]. *)
Definition prefix (n : nat) (s : string) : string := substring 0 n s.

(** A [Map] with string keys: entries in insertion order; [set] on a key
    already present replaces the value and leaves the entry where it is. *)
Section Map.
Variable V : Type.

Definition Map := list (string * V).

Fixpoint set (k : string) (v : V) (m : Map) : Map :=
  match m with
  | [] => [(k, v)]
  | (k', v') :: m' =>
      if String.eqb k' k then (k, v) :: m' else (k', v') :: set k v m'
  end.


Definition keys (m : Map) : list string := map fst m.
Definition values (m : Map) : list V := map snd m.
End Map.

End Js.

(* ================================================================== *)
(** ** Data of the agent *)

(** [AgentState]. *)
Record AgentState := mkAgentState {
  totalSearches : Z;
  lastSearchTime : Z;
  selectedRag : string
}.

Definition initialState : AgentState :=
  {| totalSearches := 0%Z; lastSearchTime := 0%Z; selectedRag := "" |}.

(** An entry of [this.messages]. *)
Record Message := mkMessage {
  role : string;
  content : string
}.

(** The value type of [allFiles], also the element type of the returned
    array. *)
Record FileRef := mkFileRef {
  filename : string;
  file_id : string
}.

(** One element of [searchResults.data], as the search service returns it. *)
Record RawResult := mkRawResult {
  raw_filename : option string;
  raw_score : Q;
  raw_content : option (list string);     (* the [text] of each chunk *)
  raw_file_id : string
}.

Record SearchResults := mkSearchResults {
  data : option (list RawResult);
  search_query : option string
}.

(** One element of [formattedResults]. *)
Record FormattedResult := mkFormattedResult {
  fr_rank : nat;
  fr_filename : string;
  fr_score : Q;
  fr_content : option string;
  fr_file_id : string
}.

(** The object [performSearch] returns; a key absent from the object literal
    is [None]. *)
Record ToolResult := mkToolResult {
  tr_success : bool;
  tr_found : option bool;
  tr_error : option string;
  tr_message : option string;
  tr_count : option nat;
  tr_search_query : option string;
  tr_results : list FormattedResult
}.

(** The object the evaluation schema describes. *)
Record Decision := mkDecision {
  isKnowledgeEnough : bool;
  nextSearchQuery : option string
}.

(** The parts of [fullStream] the final loop distinguishes. *)
Inductive StreamPart :=
| PartTextDelta (text : string)
| PartError (error : string)
| PartOther (type : string).

(** The frames written with [connection.send(JSON.stringify(...))]. *)
Inductive Frame :=
| FQueryRewrite (original rewritten : string)
| FSearchStart (query : string)
| FTextDelta (textDelta : string)
| FError (error : string)
| FFiles (files : list FileRef)
| FFinish.

(** The parsed body of an incoming string message. *)
Record Incoming := mkIncoming {
  in_selectedRag : option string;
  in_messages : option (list Message)
}.

(** The prompts, by the values interpolated into their templates. *)
Inductive Prompt :=
| RewritePrompt (previousUserMessages : list string) (userQuery : string)
| KnowledgePrompt (userQuery currentSearchQuery : string) (first : bool)
    (accumulatedKnowledge : list string)
| EvaluationPrompt (userQuery : string) (iteration : nat)
    (accumulatedKnowledge : list string)
| AnswerPrompt (userQuery : string) (iteration : nat)
    (accumulatedKnowledge : list string).

(* ================================================================== *)
(** ** External services *)

(** How an awaited external call settles. *)
Inductive Reply (A : Type) : Type :=
| Resolved (a : A)
| Rejected (message : string).
Arguments Rejected {A} message.

(** A tool-augmented generation session: the model and the generation library
    together either end the call (with the text of the last step, or by
    rejecting) or invoke the search tool and go on from how that invocation
    settled.  What the call does when the tool throws is the session's
    business too: it may end by rejecting, or hand the error to the model and
    go on.  Tool invocations of one session happen one after the other; the
    tree is well founded, so a session makes finitely many of them. *)
Inductive Session :=
| Finish (r : Reply string)
| CallTool (query : string) (k : Reply ToolResult -> Session).

Record Env (World : Type) := mkEnv {
  (** [generateText] without tools *)
  generateText : Prompt -> World -> Reply string * World;
  (** [generateText] with [tools: {searchDocuments}] and [stepCountIs(5)] *)
  generateTextWithTools : Prompt -> World -> Session * World;
  (** [generateObject] with the [Decision] schema; a schema failure rejects *)
  generateObject : Prompt -> World -> Reply Decision * World;
  (** [streamText(...).fullStream], read to its end; a failure of the stream
      arrives as a part of type [error] *)
  streamText : Prompt -> World -> list StreamPart * World;
  (** [env.AI.autorag(rag).search({query, ...})] *)
  autorag_search : string -> string -> World -> Reply SearchResults * World;
  (** [Date.now()] *)
  Date_now : World -> Z * World
}.

(* ================================================================== *)
(** ** State and control *)

(** How a piece of the agent's code ends: normally, by a thrown [Error]
    (carrying its message), or because the loop model ran out of fuel. *)
Inductive Res (A : Type) : Type :=
| Ok (a : A)
| Throw (message : string)
| OutOfFuel.
Arguments Throw {A} message.
Arguments OutOfFuel {A}.

(** How one pass through the body of [while (true)] ends. *)
Inductive LoopCtl := Continue | Break.

Section State.

Variable World : Type.

(** Everything mutable: the outside world, the agent object, the durable
    storage, the frames sent so far (oldest first) and the locals of
    [streamWithMultiStepTools]. *)
Record Sys := mkSys {
  world : World;
  state : AgentState;                            (* this.state *)
  messages : list Message;                       (* this.messages *)
  storage : option (list Message);               (* ctx.storage, key 'messages' *)
  sent : list Frame;                             (* connection *)
  allFiles : Js.Map FileRef;
  accumulatedKnowledge : list string;
  iteration : nat;
  currentSearchQuery : string;
  completeResponse : string
}.

Definition with_world (x : World) (s : Sys) : Sys :=
  mkSys x (state s) (messages s) (storage s) (sent s) (allFiles s)
    (accumulatedKnowledge s) (iteration s) (currentSearchQuery s) (completeResponse s).
Definition with_state (x : AgentState) (s : Sys) : Sys :=
  mkSys (world s) x (messages s) (storage s) (sent s) (allFiles s)
    (accumulatedKnowledge s) (iteration s) (currentSearchQuery s) (completeResponse s).
Definition with_messages (x : list Message) (s : Sys) : Sys :=
  mkSys (world s) (state s) x (storage s) (sent s) (allFiles s)
    (accumulatedKnowledge s) (iteration s) (currentSearchQuery s) (completeResponse s).
Definition with_storage (x : option (list Message)) (s : Sys) : Sys :=
  mkSys (world s) (state s) (messages s) x (sent s) (allFiles s)
    (accumulatedKnowledge s) (iteration s) (currentSearchQuery s) (completeResponse s).
Definition with_sent (x : list Frame) (s : Sys) : Sys :=
  mkSys (world s) (state s) (messages s) (storage s) x (allFiles s)
    (accumulatedKnowledge s) (iteration s) (currentSearchQuery s) (completeResponse s).
Definition with_allFiles (x : Js.Map FileRef) (s : Sys) : Sys :=
  mkSys (world s) (state s) (messages s) (storage s) (sent s) x
    (accumulatedKnowledge s) (iteration s) (currentSearchQuery s) (completeResponse s).
Definition with_accumulatedKnowledge (x : list string) (s : Sys) : Sys :=
  mkSys (world s) (state s) (messages s) (storage s) (sent s) (allFiles s)
    x (iteration s) (currentSearchQuery s) (completeResponse s).
Definition with_iteration (x : nat) (s : Sys) : Sys :=
  mkSys (world s) (state s) (messages s) (storage s) (sent s) (allFiles s)
    (accumulatedKnowledge s) x (currentSearchQuery s) (completeResponse s).
Definition with_currentSearchQuery (x : string) (s : Sys) : Sys :=
  mkSys (world s) (state s) (messages s) (storage s) (sent s) (allFiles s)
    (accumulatedKnowledge s) (iteration s) x (completeResponse s).
Definition with_completeResponse (x : string) (s : Sys) : Sys :=
  mkSys (world s) (state s) (messages s) (storage s) (sent s) (allFiles s)
    (accumulatedKnowledge s) (iteration s) (currentSearchQuery s) x.

(** Code of the agent: a state transformer that ends in a [Res]. *)
Definition M (A : Type) : Type := Sys -> Res A * Sys.

Definition ret {A} (a : A) : M A := fun s => (Ok a, s).

Definition bind {A B} (m : M A) (f : A -> M B) : M B :=
  fun s =>
    match m s with
    | (Ok a, s') => f a s'
    | (Throw e, s') => (Throw e, s')
    | (OutOfFuel, s') => (OutOfFuel, s')
    end.

Definition throw {A} (message : string) : M A := fun s => (Throw message, s).

(** [try { m } catch (error) { h(error.message) }] *)
Definition try_catch {A} (m : M A) (h : string -> M A) : M A :=
  fun s =>
    match m s with
    | (Throw e, s') => h e s'
    | r => r
    end.

Definition gets {A} (f : Sys -> A) : M A := fun s => (Ok (f s), s).
Definition modify (f : Sys -> Sys) : M unit := fun s => (Ok tt, f s).

(** [await] of an external call: a rejection is thrown at the call site. *)
Definition await {A} (call : World -> Reply A * World) : M A :=
  fun s =>
    match call (world s) with
    | (Resolved a, w) => (Ok a, with_world w s)
    | (Rejected e, w) => (Throw e, with_world w s)
    end.

(** [connection.send(JSON.stringify(f))] *)
Definition send (f : Frame) : M unit :=
  modify (fun s => with_sent (sent s ++ [f]) s).

(** [this.setState(st)] *)
Definition setState (st : AgentState) : M unit := modify (with_state st).

End State.

Arguments ret {World A} a.
Arguments throw {World A} message.
Arguments gets {World A} f.

Declare Scope agent_scope.
Delimit Scope agent_scope with agent.
Notation "x <- m ;; k" := (bind m (fun x => k))
  (at level 61, m at next level, right associativity) : agent_scope.
Notation "m ;; k" := (bind m (fun _ => k))
  (at level 61, right associativity) : agent_scope.
Open Scope agent_scope.

(* ================================================================== *)
(** ** The agent *)

Section Agent.

Variable World : Type.
Variable env : Env World.

(** *** [performSearch] *)

Definition noRagMessage : string :=
  "No RAG instance selected. Please select a RAG from the dropdown.".

(** The callback of [searchResults.data.map]. *)
Definition formatResult (index : nat) (result : RawResult) : FormattedResult :=
  {| fr_rank := index + 1;
     fr_filename := Js.or_else (raw_filename result) "Unknown";
     fr_score := Js.round2 (raw_score result);
     fr_content :=
       option_map (fun cs => Js.prefix 400 (String.concat " " cs)) (raw_content result);
     fr_file_id := raw_file_id result |}.

Fixpoint mapi (A B : Type) (f : nat -> A -> B) (index : nat) (l : list A) : list B :=
  match l with
  | [] => []
  | a :: l' => f index a :: mapi f (S index) l'
  end.

(** The body of [for (const result of formattedResults)]. *)
Definition collectFile (files : Js.Map FileRef) (result : FormattedResult)
  : Js.Map FileRef :=
  if Js.truthy (fr_filename result)
  then Js.set (fr_filename result)
         {| filename := fr_filename result; file_id := fr_file_id result |} files
  else files.

Definition collectFiles (formattedResults : list FormattedResult)
  (files : Js.Map FileRef) : Js.Map FileRef :=
  fold_left collectFile formattedResults files.

Definition noDocuments : ToolResult :=
  {| tr_success := true; tr_found := Some false; tr_error := None;
     tr_message := Some "No relevant documents found for this query.";
     tr_count := Some 0; tr_search_query := None; tr_results := [] |}.

Definition searchFailed (message : string) : ToolResult :=
  {| tr_success := false; tr_found := None;
     tr_error := Some "Failed to search the database";
     tr_message := Some message;
     tr_count := None; tr_search_query := None; tr_results := [] |}.

Definition documentsFound (query : string) (searchResults : SearchResults)
  (formattedResults : list FormattedResult) : ToolResult :=
  {| tr_success := true; tr_found := Some true; tr_error := None;
     tr_message := None;
     tr_count := Some (List.length formattedResults);
     tr_search_query := Some (Js.or_else (search_query searchResults) query);
     tr_results := formattedResults |}.

Definition now : M World Z :=
  fun s => let (t, w) := Date_now env (world s) in (Ok t, with_world w s).

Definition performSearch (query : string) : M World ToolResult :=
  st <- gets (@state World) ;;
  if negb (Js.truthy (selectedRag st)) then throw noRagMessage
  else
    send (FSearchStart query) ;;
    st <- gets (@state World) ;;
    t <- now ;;
    setState {| totalSearches := totalSearches st + 1;
                lastSearchTime := t;
                selectedRag := selectedRag st |} ;;
    try_catch
      (rag <- gets (fun s : Sys World => selectedRag (state s)) ;;
       searchResults <- await (autorag_search env rag query) ;;
       match data searchResults with
       | None | Some [] => ret noDocuments
       | Some results =>
           let formattedResults := mapi formatResult 0 results in
           modify (fun s : Sys World =>
                     with_allFiles (collectFiles formattedResults (allFiles s)) s) ;;
           ret (documentsFound query searchResults formattedResults)
       end)
      (fun message => ret (searchFailed message)).

(** [searchTool.execute] *)
Definition searchTool_execute (query : string) : M World ToolResult :=
  performSearch query.

(** *** The knowledge generation call *)

(** The generation library drives the session; each tool invocation runs
    [searchTool.execute] on the agent's state, and the session goes on from
    the way it settled. *)
Fixpoint run_session (session : Session) : M World string :=
  match session with
  | Finish (Resolved text) => ret text
  | Finish (Rejected message) => throw message
  | CallTool query k =>
      fun s =>
        match searchTool_execute query s with
        | (Ok result, s') => run_session (k (Resolved result)) s'
        | (Throw message, s') => run_session (k (Rejected message)) s'
        | (OutOfFuel, s') => (OutOfFuel, s')
        end
  end.

Definition generateKnowledge (prompt : Prompt) : M World string :=
  fun s =>
    let (session, w) := generateTextWithTools env prompt (world s) in
    run_session session (with_world w s).

(** *** The loop *)

Definition maxIterations : nat := 5.

(** The body of [while (true)] from the test of [newKnowledge.trim()] on. *)
Definition afterKnowledge (userQuery newKnowledge : string) : M World LoopCtl :=
  if Js.truthy (Js.trim newKnowledge) then
    modify (fun s : Sys World =>
              with_accumulatedKnowledge (accumulatedKnowledge s ++ [newKnowledge]) s) ;;
    s <- gets (fun s : Sys World => s) ;;
    decision <-
      await (generateObject env
               (EvaluationPrompt userQuery (iteration s) (accumulatedKnowledge s))) ;;
    if isKnowledgeEnough decision || (maxIterations <=? iteration s)%nat then ret Break
    else
      match nextSearchQuery decision with
      | Some q =>
          if Js.truthy q
          then modify (with_currentSearchQuery q) ;; ret Continue
          else ret Break
      | None => ret Break
      end
  else ret Break.

(** The prompt of the knowledge generation call, once [iteration] has been
    incremented. *)
Definition knowledgePrompt (userQuery : string) (s : Sys World) : Prompt :=
  KnowledgePrompt userQuery (currentSearchQuery s) (iteration s =? 1)%nat
    (accumulatedKnowledge s).

(** One pass through the body of [while (true)]. *)
Definition iteration_body (userQuery : string) : M World LoopCtl :=
  modify (fun s : Sys World => with_iteration (iteration s + 1) s) ;;
  s <- gets (fun s : Sys World => s) ;;
  newKnowledge <- generateKnowledge (knowledgePrompt userQuery s) ;;
  afterKnowledge userQuery newKnowledge.

(** [while (true) { ... }]; the fuel bounds the number of passes the model
    follows. *)
Fixpoint agentic_loop (fuel : nat) (userQuery : string) : M World unit :=
  match fuel with
  | O => fun s => (OutOfFuel, s)
  | S fuel' =>
      c <- iteration_body userQuery ;;
      match c with
      | Break => ret tt
      | Continue => agentic_loop fuel' userQuery
      end
  end.

(** *** Query rewriting *)

Fixpoint lastMessage (l : list Message) : option Message :=
  match l with
  | [] => None
  | [m] => Some m
  | _ :: l' => lastMessage l'
  end.

(** [this.messages.slice(0, -1).filter(role === 'user').map(content)] *)
Definition previousUserMessages (msgs : list Message) : list string :=
  map content (filter (fun msg => String.eqb (role msg) "user") (removelast msgs)).

Definition rewriteQuery (userQuery : string) : M World unit :=
  msgs <- gets (@messages World) ;;
  match previousUserMessages msgs with
  | [] => ret tt
  | previous =>
      try_catch
        (text <- await (generateText env (RewritePrompt previous userQuery)) ;;
         modify (with_currentSearchQuery (Js.trim text)) ;;
         send (FQueryRewrite userQuery (Js.trim text)))
        (fun _ => ret tt)
  end.

(** *** The final answer *)

(** The body of [for await (const part of finalResult.fullStream)]. *)
Definition handlePart (part : StreamPart) : M World unit :=
  match part with
  | PartTextDelta text =>
      modify (fun s : Sys World => with_completeResponse (completeResponse s ++ text) s) ;;
      send (FTextDelta text)
  | PartError error => send (FError error)
  | PartOther _ => ret tt
  end.

Fixpoint forEachPart (parts : list StreamPart) : M World unit :=
  match parts with
  | [] => ret tt
  | part :: parts' => handlePart part ;; forEachPart parts'
  end.

(** [streamText({...}).fullStream] *)
Definition fullStream (prompt : Prompt) : M World (list StreamPart) :=
  fun s =>
    let (parts, w) := streamText env prompt (world s) in (Ok parts, with_world w s).

Definition streamAnswer (userQuery : string) : M World unit :=
  s <- gets (fun s : Sys World => s) ;;
  parts <- fullStream (AnswerPrompt userQuery (iteration s) (accumulatedKnowledge s)) ;;
  modify (with_completeResponse "") ;;
  forEachPart parts ;;
  response <- gets (@completeResponse World) ;;
  if Js.truthy (Js.trim response)
  then modify (fun s : Sys World =>
                 with_messages (messages s ++ [mkMessage "assistant" response]) s)
  else ret tt.

(** *** [streamWithMultiStepTools] *)

Definition undefinedContentMessage : string :=
  "Cannot read properties of undefined (reading 'content')".

(** The final answer and the [return]. *)
Definition answerAndReturn (userQuery : string) : M World (list FileRef) :=
  streamAnswer userQuery ;;
  files <- gets (@allFiles World) ;;
  ret (Js.values files).

(** From [while (true)] to the [return]. *)
Definition loopAndAnswer (fuel : nat) (userQuery : string) : M World (list FileRef) :=
  agentic_loop fuel userQuery ;;
  answerAndReturn userQuery.

(** The rest of [streamWithMultiStepTools] from inside the knowledge
    generation call of a pass: what is left of the session, the rest of the
    pass, the passes after it ([fuel] of them at most) and the answer. *)
Definition continueTurn (session : Session) (fuel : nat) (userQuery : string)
  : M World (list FileRef) :=
  newKnowledge <- run_session session ;;
  c <- afterKnowledge userQuery newKnowledge ;;
  match c with
  | Break => ret tt
  | Continue => agentic_loop fuel userQuery
  end ;;
  answerAndReturn userQuery.

Definition streamWithMultiStepTools (fuel : nat) : M World (list FileRef) :=
  modify (fun s : Sys World =>
            with_allFiles [] (with_accumulatedKnowledge [] (with_iteration 0 s))) ;;
  msgs <- gets (@messages World) ;;
  match lastMessage msgs with
  | None => throw undefinedContentMessage
  | Some current =>
      let userQuery := content current in
      modify (with_currentSearchQuery userQuery) ;;
      rewriteQuery userQuery ;;
      loopAndAnswer fuel userQuery
  end.

(** *** The message handler *)

Definition persistMessages : M World unit :=
  modify (fun s : Sys World => with_storage (Some (messages s)) s).

Definition processAndStreamResponse (fuel : nat) : M World unit :=
  usedFiles <- streamWithMultiStepTools fuel ;;
  persistMessages ;;
  (if (0 <? List.length usedFiles)%nat then send (FFiles usedFiles) else ret tt) ;;
  send FFinish.

(** [if (data.selectedRag && typeof data.selectedRag === 'string')] *)
Definition updateSelectedRag (data : Incoming) : M World unit :=
  match in_selectedRag data with
  | Some rag =>
      if Js.truthy rag then
        st <- gets (@state World) ;;
        setState {| totalSearches := totalSearches st;
                    lastSearchTime := lastSearchTime st;
                    selectedRag := rag |}
      else ret tt
  | None => ret tt
  end.

(** Reload the persisted history, add the incoming messages, persist. *)
Definition addMessages (msgs : list Message) : M World unit :=
  stored <- gets (@storage World) ;;
  (match stored with
   | Some ms => modify (with_messages ms)
   | None => ret tt
   end) ;;
  modify (fun s : Sys World => with_messages (messages s ++ msgs) s) ;;
  persistMessages.

(** [onMessage] on a string that parses to [data]. *)
Definition onMessage (fuel : nat) (data : Incoming) : M World unit :=
  try_catch
    (updateSelectedRag data ;;
     match in_messages data with
     | Some msgs => addMessages msgs ;; processAndStreamResponse fuel
     | None => ret tt
     end)
    (fun message => send (FError message)).

End Agent.

(* ================================================================== *)
(** ** The rest of the worker *)

(** *** [onConnect] *)

(** The frame [onConnect] writes to the connecting client. *)
Inductive ConnectFrame :=
| FMessageHistory (history : list Message).

Section Connect.

Variable World : Type.

(** Load the persisted messages; returns what was sent on the new
    connection.  A stored array is truthy also when it is empty. *)
Definition onConnect : M World (list ConnectFrame) :=
  storedMessages <- gets (@storage World) ;;
  match storedMessages with
  | Some stored =>
      modify (with_messages stored) ;;
      msgs <- gets (@messages World) ;;
      if (0 <? List.length msgs)%nat
      then ret [FMessageHistory msgs]
      else ret []
  | None => ret []
  end.

End Connect.

(** *** Strings of the [fetch] handler *)

Module JsText.

(** [s.startsWith(p)] *)
Fixpoint startsWith (p s : string) : bool :=
  match p, s with
  | EmptyString, _ => true
  | String a p', String b s' => Ascii.eqb a b && startsWith p' s'
  | String _ _, EmptyString => false
  end.

Fixpoint drop (n : nat) (s : string) : string :=
  match n, s with
  | O, _ => s
  | S n', String _ s' => drop n' s'
  | S _, EmptyString => EmptyString
  end.

(** [s.replace(pat, rep)] for a string pattern and a replacement without
    dollar signs: the first occurrence only. *)
Fixpoint replaceFirst (pat rep s : string) : string :=
  if startsWith pat s then rep ++ drop (String.length pat) s
  else match s with
       | EmptyString => EmptyString
       | String c s' => String c (replaceFirst pat rep s')
       end.

(** [s.split(sep)] for a separator of one code unit: never an empty array. *)
Fixpoint split (sep : ascii) (s : string) : list string :=
  match s with
  | EmptyString => [EmptyString]
  | String c s' =>
      if Ascii.eqb c sep then EmptyString :: split sep s'
      else match split sep s' with
           | segment :: rest => String c segment :: rest
           | [] => [String c EmptyString]
           end
  end.

(** [a.pop()], as a value: the last element, undefined on an empty array. *)
Fixpoint pop (a : list string) : option string :=
  match a with
  | [] => None
  | [x] => Some x
  | _ :: a' => pop a'
  end.

Definition slash : ascii := ascii_of_nat 47.
Definition quote : string := String (ascii_of_nat 34) EmptyString.

(** What [Headers.prototype.set] does with a value.  The value is normalised
    first: the HTTP whitespace (TAB, LF, CR, SP) at its two ends is removed.
    What is left is refused when it holds NUL, LF or CR. *)
Definition is_http_whitespace (c : ascii) : bool :=
  let n := nat_of_ascii c in
  (n =? 9)%nat || (n =? 10)%nat || (n =? 13)%nat || (n =? 32)%nat.

Fixpoint stripStart (s : string) : string :=
  match s with
  | EmptyString => EmptyString
  | String c s' => if is_http_whitespace c then stripStart s' else s
  end.

Fixpoint stripEnd (s : string) : string :=
  match s with
  | EmptyString => EmptyString
  | String c s' =>
      match stripEnd s' with
      | EmptyString => if is_http_whitespace c then EmptyString else String c EmptyString
      | t => String c t
      end
  end.

Definition normalizeHeaderValue (value : string) : string :=
  stripEnd (stripStart value).

Definition is_forbidden_in_header (c : ascii) : bool :=
  let n := nat_of_ascii c in
  (n =? 0)%nat || (n =? 10)%nat || (n =? 13)%nat.

Fixpoint validHeaderValue (value : string) : bool :=
  match value with
  | EmptyString => true
  | String c value' => negb (is_forbidden_in_header c) && validHeaderValue value'
  end.

End JsText.

(** *** [fetch] *)

Section Worker.

(** The list of instances, a response produced elsewhere (by the agents
    router or the static assets) and the body of a stored object are opaque. *)
Variables Rags Upstream Body : Type.

Record Request := mkRequest {
  pathname : string;                 (* new URL(request.url).pathname *)
  method : string
}.

Record HttpMetadata := mkHttpMetadata {
  contentType : option string
}.

(** What [env.BUCKET.get] resolves to when the key exists. *)
Record R2Object := mkR2Object {
  httpMetadata : option HttpMetadata;
  body : Body
}.

Inductive Response :=
| JsonRags (rags : Rags)                         (* 200 {success: true, rags} *)
| JsonFailure (status : nat) (error : string)    (* {success: false, error} *)
| JsonError (status : nat) (error : string)      (* {error} *)
| Download (content : Body) (headers : list (string * string))   (* 200 *)
| Forwarded (response : Upstream)
| NotFoundText.                                  (* 404 'Not Found' *)

(** The bindings and library calls of the handler.  One request calls each of
    them at most once, so a call is a function of its arguments. *)
Record Bindings := mkBindings {
  autorag_list : Reply Rags;                              (* env.AI.autorag().list() *)
  routeAgentRequest : Request -> Reply (option Upstream); (* null when no agent matches *)
  BUCKET_get : string -> Reply (option R2Object);         (* null when the key is absent *)
  ASSETS : option (Request -> Reply Upstream);            (* env.ASSETS, when bound *)
  decodeURIComponent : string -> Reply string             (* throws URIError *)
}.

(** [object.httpMetadata?.contentType] *)
Definition objectContentType (object : R2Object) : option string :=
  match httpMetadata object with
  | Some metadata => contentType metadata
  | None => None
  end.

(** [decodedPath.split('/').pop() || decodedPath] *)
Definition downloadName (decodedPath : string) : string :=
  Js.or_else (JsText.pop (JsText.split JsText.slash decodedPath)) decodedPath.

(** [headers.set(name, value)] on a new [Headers] object, for a name not set
    before: the entry added, or the TypeError thrown (the handler drops its
    message). *)
Definition headers_set (name value : string) (headers : list (string * string))
  : Reply (list (string * string)) :=
  let stored := JsText.normalizeHeaderValue value in
  if JsText.validHeaderValue stored then Resolved (headers ++ [(name, stored)])%list
  else Rejected "Invalid header value".

(** The three [headers.set] calls, in the order of the source; the first that
    throws ends them. *)
Definition downloadHeaders (object : R2Object) (filename : string)
  : Reply (list (string * string)) :=
  match headers_set "Content-Type"
          (Js.or_else (objectContentType object) "application/pdf") [] with
  | Resolved headers1 =>
      match headers_set "Content-Disposition"
              ("attachment; filename=" ++ JsText.quote ++ filename ++ JsText.quote)
              headers1 with
      | Resolved headers2 =>
          headers_set "Cache-Control" "public, max-age=31536000" headers2
      | Rejected message => Rejected message
      end
  | Rejected message => Rejected message
  end.

Definition fetch (b : Bindings) (request : Request) : Res Response :=
  if String.eqb (pathname request) "/api/rags" && String.eqb (method request) "GET"
  then
    match autorag_list b with
    | Resolved rags => Ok (JsonRags rags)
    | Rejected message => Ok (JsonFailure 500 message)
    end
  else if JsText.startsWith "/agents/" (pathname request) then
    match routeAgentRequest b request with
    | Resolved (Some response) => Ok (Forwarded response)
    | Resolved None => Ok (JsonError 404 "Agent not found")
    | Rejected message => Throw message
    end
  else if JsText.startsWith "/documents/" (pathname request) then
    let filePath := JsText.replaceFirst "/documents/" "" (pathname request) in
    if negb (Js.truthy filePath) then Ok (JsonError 400 "File path required")
    else
      match decodeURIComponent b filePath with
      | Rejected message => Throw message
      | Resolved decodedPath =>
          let filename := downloadName decodedPath in
          match BUCKET_get b decodedPath with
          | Resolved (Some object) =>
              match downloadHeaders object filename with
              | Resolved headers => Ok (Download (body object) headers)
              | Rejected _ => Ok (JsonError 500 "Failed to fetch document")
              end
          | Resolved None => Ok (JsonError 404 "File not found")
          | Rejected _ => Ok (JsonError 500 "Failed to fetch document")
          end
      end
  else
    match ASSETS b with
    | Some assets =>
        match assets request with
        | Resolved response => Ok (Forwarded response)
        | Rejected message => Throw message
        end
    | None => Ok NotFoundText
    end.

End Worker.

(* ================================================================== *)
(** ** Notions used in the statements *)


(** A session that, however its tool invocations settle, ends with a text that
    is not blank. *)
Inductive yields_knowledge : Session -> Prop :=
| yields_finish text :
    Js.truthy (Js.trim text) = true -> yields_knowledge (Finish (Resolved text))
| yields_call query k :
    (forall r, yields_knowledge (k r)) -> yields_knowledge (CallTool query k).

(** What the final loop sends for a part, and the text it collects. *)
Definition partFrames (part : StreamPart) : list Frame :=
  match part with
  | PartTextDelta text => [FTextDelta text]
  | PartError error => [FError error]
  | PartOther _ => []
  end.

Definition partText (part : StreamPart) : string :=
  match part with
  | PartTextDelta text => text
  | _ => ""
  end.

Definition streamFrames (parts : list StreamPart) : list Frame :=
  flat_map partFrames parts.

Definition streamedText (parts : list StreamPart) : string :=
  fold_right (fun part acc => partText part ++ acc) "" parts.

(** The state in which [performSearch] issues the search: the frame
    [search-start] sent, the clock read, the counters updated. *)
Definition searchStarted World (env : Env World) (query : string) (s : Sys World)
  : Sys World :=
  let (t, w) := Date_now env (world s) in
  with_state {| totalSearches := totalSearches (state s) + 1;
                lastSearchTime := t;
                selectedRag := selectedRag (state s) |}
    (with_world w (with_sent (sent s ++ [FSearchStart query]) s)).

(** The locals of [streamWithMultiStepTools] that only the loop itself writes,
    and the history. *)
Definition same_locals World (s s' : Sys World) : Prop :=
  iteration s' = iteration s /\
  currentSearchQuery s' = currentSearchQuery s /\
  accumulatedKnowledge s' = accumulatedKnowledge s /\
  messages s' = messages s /\
  storage s' = storage s /\
  completeResponse s' = completeResponse s /\
  selectedRag (state s') = selectedRag (state s).

(** The name a search result is filed under: [result.filename || 'Unknown']. *)
Definition registeredName (result : RawResult) : string :=
  Js.or_else (raw_filename result) "Unknown".

(** A piece of code keeps a property of the state, however it ends. *)
Definition preserves World A (Q : Sys World -> Prop) (m : M World A) : Prop :=
  forall s, Q s -> Q (snd (m s)).

(** The locals as [streamWithMultiStepTools] declares them. *)
Definition freshLocals World (userQuery : string) (s : Sys World) : Sys World :=
  with_currentSearchQuery userQuery
    (with_allFiles [] (with_accumulatedKnowledge [] (with_iteration 0 s))).

(** The state in which the loop is entered. *)
Definition loopEntry World (env : Env World) (userQuery : string) (s : Sys World)
  : Sys World :=
  snd (rewriteQuery env userQuery (freshLocals userQuery s)).

(** The state in which [onMessage] calls [processAndStreamResponse]. *)
Definition received World (data : Incoming) (msgs : list Message) (s : Sys World)
  : Sys World :=
  snd (bind (updateSelectedRag data) (fun _ => addMessages msgs) s).

(** [passes env userQuery n s0 s]: entered in state [s0], the loop goes through
    [n] passes that all end by going round again, and is back at its head in
    state [s]. *)
Inductive passes World (env : Env World) (userQuery : string)
  : nat -> Sys World -> Sys World -> Prop :=
| passes_none s : passes env userQuery 0 s s
| passes_more n s0 s1 s2 :
    passes env userQuery n s0 s1 ->
    iteration_body env userQuery s1 = (Ok Continue, s2) ->
    passes env userQuery (S n) s0 s2.

(** The number of [search-start] frames among the frames sent. *)
Definition isSearchStart (f : Frame) : bool :=
  match f with
  | FSearchStart _ => true
  | _ => false
  end.

Definition searchStarts (frames : list Frame) : nat :=
  List.length (filter isSearchStart frames).

(** A text that is not empty after trimming. *)
Definition notBlank (text : string) : Prop := Js.truthy (Js.trim text) = true.

(** The history [onMessage] starts from: what is stored, else what is in
    memory. *)
Definition reloaded World (s : Sys World) : list Message :=
  match storage s with
  | Some stored => stored
  | None => messages s
  end.

(** The string [s] holds the code unit [c]. *)
Fixpoint contains (c : ascii) (s : string) : Prop :=
  match s with
  | EmptyString => False
  | String x s' => x = c \/ contains c s'
  end.

(** The same services with one of them replaced. *)
Definition withGenerateText World (g : Prompt -> World -> Reply string * World)
  (e : Env World) : Env World :=
  mkEnv g (generateTextWithTools e) (generateObject e) (streamText e)
    (autorag_search e) (Date_now e).

Definition withGenerateTextWithTools World (g : Prompt -> World -> Session * World)
  (e : Env World) : Env World :=
  mkEnv (generateText e) g (generateObject e) (streamText e)
    (autorag_search e) (Date_now e).

Definition withGenerateObject World (g : Prompt -> World -> Reply Decision * World)
  (e : Env World) : Env World :=
  mkEnv (generateText e) (generateTextWithTools e) g (streamText e)
    (autorag_search e) (Date_now e).

Definition withStreamText World (g : Prompt -> World -> list StreamPart * World)
  (e : Env World) : Env World :=
  mkEnv (generateText e) (generateTextWithTools e) (generateObject e) g
    (autorag_search e) (Date_now e).

Definition withSearch World
  (g : string -> string -> World -> Reply SearchResults * World)
  (e : Env World) : Env World :=
  mkEnv (generateText e) (generateTextWithTools e) (generateObject e) (streamText e)
    g (Date_now e).

(* ================================================================== *)
(** ** A concrete world for the examples

    The world counts the external calls made so far. *)

Module Demo.

Definition tick A (a : A) (w : nat) : A * nat := (a, S w).

Definition policyDocs : list RawResult :=
  [ mkRawResult (Some "policy-x.pdf") (8712 # 10000) (Some ["Policy X"; "applies."]) "f-1";
    mkRawResult None (5 # 10) None "f-2";
    mkRawResult (Some "") (4 # 10) (Some []) "f-3" ].


(** A session that searches for the query of its prompt once and then reports
    a finding, whatever the search tool answered. *)
Definition searchOnce (prompt : Prompt) : Session :=
  match prompt with
  | KnowledgePrompt _ q _ _ => CallTool q (fun _ => Finish (Resolved "- X applies (policy-x.pdf)"))
  | _ => Finish (Resolved "- nothing")
  end.

(** A session that searches once and gives up with the tool's error when the
    tool throws. *)
Definition searchOrFail (prompt : Prompt) : Session :=
  match prompt with
  | KnowledgePrompt _ q _ _ =>
      CallTool q (fun r =>
                    match r with
                    | Resolved _ => Finish (Resolved "- X applies (policy-x.pdf)")
                    | Rejected message => Finish (Rejected message)
                    end)
  | _ => Finish (Resolved "- nothing")
  end.

(** A session that finds something on the first pass only. *)
Definition dryAfterFirst (prompt : Prompt) : Session :=
  match prompt with
  | KnowledgePrompt _ _ true _ => Finish (Resolved "- X applies (policy-x.pdf)")
  | _ => Finish (Resolved "  ")
  end.

Definition wantsMore : Decision :=
  {| isKnowledgeEnough := false; nextSearchQuery := Some "clause Y of policy X" |}.

Definition satisfied : Decision :=
  {| isKnowledgeEnough := true; nextSearchQuery := None |}.

(** The evaluator is satisfied from the [k]-th evaluation on. *)
Definition satisfiedAt (k : nat) (prompt : Prompt) : Decision :=
  match prompt with
  | EvaluationPrompt _ i _ => if (k <=? i)%nat then satisfied else wantsMore
  | _ => wantsMore
  end.

Definition env : Env nat :=
  {| generateText := fun _ => tick (Resolved "  policy X, clause Y ");
     generateTextWithTools := fun p => tick (searchOnce p);
     generateObject := fun _ => tick (Resolved wantsMore);
     streamText :=
       fun _ => tick [PartTextDelta "X "; PartError "overloaded"; PartTextDelta "applies."];
     autorag_search := fun _ _ => tick (Resolved (mkSearchResults (Some policyDocs) None));
     Date_now := tick 1700000000000%Z |}.

(** Variations: one service behaves differently. *)
Definition envDry : Env nat :=
  withGenerateTextWithTools (fun p => tick (dryAfterFirst p)) env.

Definition envSatisfiedAt (k : nat) : Env nat :=
  withGenerateObject (fun p => tick (Resolved (satisfiedAt k p))) env.

Definition envSearchDown : Env nat :=
  withSearch (fun _ _ => tick (Rejected "index unavailable")) env.

Definition envRethrow : Env nat :=
  withGenerateTextWithTools (fun p => tick (searchOrFail p)) env.

Definition envRewriteDown : Env nat :=
  withGenerateText (fun _ => tick (Rejected "model overloaded")) env.


(** The session goes on after a tool error, and the answer streams without
    incident. *)
Definition envCalm : Env nat :=
  withStreamText (fun _ => tick [PartTextDelta "I could not search: no collection."]) env.

Definition user (text : string) : Message := mkMessage "user" text.

Definition assistant (text : string) : Message := mkMessage "assistant" text.

Definition start (rag : string) (history : list Message) : Sys nat :=
  {| world := 0;
     state := {| totalSearches := 0; lastSearchTime := 0; selectedRag := rag |};
     messages := history;
     storage := None;
     sent := [];
     allFiles := [];
     accumulatedKnowledge := [];
     iteration := 0;
     currentSearchQuery := "";
     completeResponse := "" |}.

(** A bucket with one report, a router that knows no agent, no static
    assets; decoding leaves a path without percent signs as it is. *)
Definition report : R2Object string :=
  mkR2Object (Some (mkHttpMetadata (Some ""))) "%PDF-1.7".

Definition bindings : Bindings (list string) string string :=
  {| autorag_list := Resolved ["docs"; "handbook"];
     routeAgentRequest := fun _ => Resolved None;
     BUCKET_get :=
       fun key => if String.eqb key "reports/2024/policy x.pdf"
                  then Resolved (Some report) else Resolved None;
     ASSETS := None;
     decodeURIComponent := fun path => Resolved path |}.

Definition bindingsBrokenRouter : Bindings (list string) string string :=
  {| autorag_list := Rejected "list unavailable";
     routeAgentRequest := fun _ => Rejected "agent crashed";
     BUCKET_get := fun _ => Rejected "bucket unavailable";
     ASSETS := None;
     decodeURIComponent := fun path => Resolved path |}.

(** Decoding as far as the examples need it: [%20] is a space and [%0A] a
    line feed. *)
Fixpoint decode (s : string) : string :=
  match s with
  | EmptyString => EmptyString
  | String a s' =>
      match s' with
      | String b (String c rest) =>
          if Ascii.eqb a "%" && Ascii.eqb b "2" && Ascii.eqb c "0"
          then String " " (decode rest)
          else if Ascii.eqb a "%" && Ascii.eqb b "0" && Ascii.eqb c "A"
          then String (ascii_of_nat 10) (decode rest)
          else String a (decode s')
      | _ => String a (decode s')
      end
  end.

(** The same bucket, holding the report also under a key with a line feed in
    its name, behind a decoder. *)
Definition bindingsDecoding : Bindings (list string) string string :=
  {| autorag_list := Resolved ["docs"; "handbook"];
     routeAgentRequest := fun _ => Resolved None;
     BUCKET_get :=
       fun key => if String.eqb key "reports/2024/policy x.pdf"
                     || String.eqb key (decode "notes/a%0Ab.pdf")
                  then Resolved (Some report) else Resolved None;
     ASSETS := None;
     decodeURIComponent := fun path => Resolved (decode path) |}.

(** More variations of the services. *)
Definition envNoResults : Env nat :=
  withSearch (fun _ _ => tick (Resolved (mkSearchResults (Some []) None))) env.

Definition envSchemaDown : Env nat :=
  withGenerateObject (fun _ => tick (Rejected "schema mismatch")) env.

Definition envModelDown : Env nat :=
  withGenerateTextWithTools (fun _ => tick (Finish (Rejected "model overloaded"))) env.

End Demo.

(* ================================================================== *)
(** ** Properties *)

Ltac munfold :=
  unfold send, setState, now, await in *;
  unfold bind, ret, gets, modify, throw, try_catch in *.

(** *** Strings and maps *)

Lemma append_assoc (a b c : string) : ((a ++ b) ++ c = a ++ (b ++ c))%string.
Proof. induction a as [|x a IH]; simpl; [reflexivity | now rewrite IH]. Qed.

Lemma append_empty_r (a : string) : (a ++ "")%string = a.
Proof. induction a as [|x a IH]; simpl; [reflexivity | now rewrite IH]. Qed.

Example trim_both_ends : Js.trim "  policy X, clause Y " = "policy X, clause Y".
Proof. reflexivity. Qed.

Example trim_blank :
  Js.trim (String (ascii_of_nat 9) (String (ascii_of_nat 160) (String (ascii_of_nat 10) " ")))
  = "".
Proof. reflexivity. Qed.

Example set_replaces_in_place :
  Js.set "a" 3 [("a", 1); ("b", 2)] = [("a", 3); ("b", 2)].
Proof. reflexivity. Qed.

Example set_appends_new_key :
  Js.set "c" 3 [("a", 1); ("b", 2)] = [("a", 1); ("b", 2); ("c", 3)].
Proof. reflexivity. Qed.

Example round2_two_decimals : Qeq (Js.round2 (8712 # 10000)) (87 # 100).
Proof. reflexivity. Qed.

Example round2_half_up : Qeq (Js.round2 (125 # 1000)) (13 # 100).
Proof. reflexivity. Qed.

Section MapFacts.
Variable V : Type.
Implicit Types (m : Js.Map V) (k : string) (v : V).

Lemma keys_set_present m k v :
  In k (Js.keys m) -> Js.keys (Js.set k v m) = Js.keys m.
Proof.
  induction m as [|[k' v'] m IH]; simpl; intros H; [contradiction|].
  destruct (String.eqb_spec k' k) as [->|Hne]; simpl; [reflexivity|].
  destruct H as [H|H]; [congruence|]. now rewrite IH.
Qed.

Lemma keys_set_absent m k v :
  ~ In k (Js.keys m) -> Js.keys (Js.set k v m) = (Js.keys m ++ [k])%list.
Proof.
  induction m as [|[k' v'] m IH]; simpl; intros H; [reflexivity|].
  destruct (String.eqb_spec k' k) as [->|Hne]; simpl.
  - exfalso; apply H; now left.
  - rewrite IH; [reflexivity|]. intros Hin; apply H; now right.
Qed.






End MapFacts.

(** *** The search function *)

Section AgentFacts.

Variable World : Type.
Variable env : Env World.
Implicit Types (s : Sys World) (query userQuery : string) (session : Session).

Lemma performSearch_no_rag query s :
  Js.truthy (selectedRag (state s)) = false ->
  performSearch env query s = (Throw noRagMessage, s).
Proof.
  intros H. unfold performSearch. munfold. simpl. now rewrite H.
Qed.

(** With a collection selected, [performSearch] always returns an object. *)
Lemma performSearch_eq query s :
  Js.truthy (selectedRag (state s)) = true ->
  performSearch env query s =
    let s1 := searchStarted env query s in
    match autorag_search env (selectedRag (state s)) query (world s1) with
    | (Resolved searchResults, w) =>
        match data searchResults with
        | Some (r :: rs) =>
            let formattedResults := mapi formatResult 0 (r :: rs) in
            (Ok (documentsFound query searchResults formattedResults),
             with_allFiles (collectFiles formattedResults (allFiles s)) (with_world w s1))
        | _ => (Ok noDocuments, with_world w s1)
        end
    | (Rejected message, w) => (Ok (searchFailed message), with_world w s1)
    end.
Proof.
  intros H. unfold performSearch, searchStarted. munfold. simpl. rewrite H. simpl.
  destruct (Date_now env (world s)) as [t w1]; simpl.
  destruct (autorag_search env (selectedRag (state s)) query w1) as [[sr|msg] w2];
    simpl; [|reflexivity].
  destruct (data sr) as [[|r rs]|]; reflexivity.
Qed.

Lemma searchStarted_locals query s : same_locals s (searchStarted env query s).
Proof.
  unfold searchStarted, same_locals.
  destruct (Date_now env (world s)); simpl. repeat split.
Qed.

Lemma searchStarted_files query s : allFiles (searchStarted env query s) = allFiles s.
Proof. unfold searchStarted. now destruct (Date_now env (world s)). Qed.

Lemma same_locals_refl s : same_locals s s.
Proof. unfold same_locals. repeat split. Qed.

Lemma same_locals_trans s1 s2 s3 :
  same_locals s1 s2 -> same_locals s2 s3 -> same_locals s1 s3.
Proof.
  unfold same_locals. intros (a1 & a2 & a3 & a4 & a5 & a6 & a7) (b1 & b2 & b3 & b4 & b5 & b6 & b7).
  repeat split; congruence.
Qed.

Lemma performSearch_locals query s : same_locals s (snd (performSearch env query s)).
Proof.
  destruct (Js.truthy (selectedRag (state s))) eqn:Hrag.
  - rewrite performSearch_eq by assumption. cbv zeta.
    pose proof (searchStarted_locals query s) as H.
    destruct (autorag_search _ _ _ _) as [[sr|msg] w]; simpl.
    + destruct (data sr) as [[|r rs]|]; simpl; exact H.
    + exact H.
  - rewrite performSearch_no_rag by assumption. apply same_locals_refl.
Qed.

Lemma performSearch_fuel query s : fst (performSearch env query s) <> OutOfFuel.
Proof.
  destruct (Js.truthy (selectedRag (state s))) eqn:Hrag.
  - rewrite performSearch_eq by assumption. cbv zeta.
    destruct (autorag_search _ _ _ _) as [[sr|msg] w]; simpl; [|discriminate].
    destruct (data sr) as [[|r rs]|]; simpl; discriminate.
  - rewrite performSearch_no_rag by assumption. discriminate.
Qed.

Lemma run_session_locals session s : same_locals s (snd (run_session env session s)).
Proof.
  revert s. induction session as [[text|msg]|query k IH]; intros s; simpl.
  - apply same_locals_refl.
  - apply same_locals_refl.
  - unfold searchTool_execute.
    pose proof (performSearch_locals query s) as Hl.
    destruct (performSearch env query s) as [[result|msg|] s1]; simpl in *.
    + eapply same_locals_trans; [exact Hl | apply IH].
    + eapply same_locals_trans; [exact Hl | apply IH].
    + exact Hl.
Qed.

Lemma run_session_fuel session s : fst (run_session env session s) <> OutOfFuel.
Proof.
  revert s. induction session as [[text|msg]|query k IH]; intros s; simpl;
    try discriminate.
  unfold searchTool_execute.
  pose proof (performSearch_fuel query s) as Hf.
  destruct (performSearch env query s) as [[result|msg|] s1]; simpl in *;
    [apply IH | apply IH | congruence].
Qed.

Lemma generateKnowledge_locals prompt s :
  same_locals s (snd (generateKnowledge env prompt s)).
Proof.
  unfold generateKnowledge.
  destruct (generateTextWithTools env prompt (world s)) as [session w].
  eapply same_locals_trans; [|apply run_session_locals].
  unfold same_locals; simpl; repeat split.
Qed.

Lemma generateKnowledge_fuel prompt s :
  fst (generateKnowledge env prompt s) <> OutOfFuel.
Proof.
  unfold generateKnowledge.
  destruct (generateTextWithTools env prompt (world s)) as [session w].
  apply run_session_fuel.
Qed.

(** A session that [yields_knowledge] returns a text that is not blank. *)
Lemma run_session_yields session s :
  yields_knowledge session ->
  exists text s', run_session env session s = (Ok text, s') /\
                  Js.truthy (Js.trim text) = true.
Proof.
  intros Hy. revert s. induction Hy as [text Ht|query k _ IH]; intros s; simpl.
  - now exists text, s.
  - unfold searchTool_execute.
    pose proof (performSearch_fuel query s) as Hf.
    destruct (performSearch env query s) as [[result|msg|] s1]; simpl in *;
      [apply IH | apply IH | congruence].
Qed.


(** *** Query rewriting and the final answer, as equations *)

Lemma rewriteQuery_eq userQuery s :
  rewriteQuery env userQuery s =
    match previousUserMessages (messages s) with
    | [] => (Ok tt, s)
    | previous =>
        match generateText env (RewritePrompt previous userQuery) (world s) with
        | (Resolved text, w) =>
            (Ok tt,
             with_sent (sent s ++ [FQueryRewrite userQuery (Js.trim text)])
               (with_currentSearchQuery (Js.trim text) (with_world w s)))
        | (Rejected _, w) => (Ok tt, with_world w s)
        end
    end.
Proof.
  unfold rewriteQuery. munfold. cbn [messages].
  destruct (previousUserMessages (messages s)) as [|p ps]; [reflexivity|].
  destruct (generateText env _ (world s)) as [[text|msg] w]; reflexivity.
Qed.

Lemma forEachPart_eq parts s :
  forEachPart parts s =
    (Ok tt,
     with_completeResponse (completeResponse s ++ streamedText parts)
       (with_sent (sent s ++ streamFrames parts) s)).
Proof.
  revert s. induction parts as [|part parts IH]; intros s.
  - destruct s; simpl. unfold ret, with_completeResponse, with_sent; simpl.
    now rewrite append_empty_r, app_nil_r.
  - cbn [forEachPart]. unfold bind at 1.
    assert (Hp : handlePart part s =
                 (Ok tt, with_completeResponse (completeResponse s ++ partText part)
                           (with_sent (sent s ++ partFrames part) s))).
    { destruct s; destruct part; simpl; munfold; simpl;
        unfold with_completeResponse, with_sent; simpl;
        rewrite ?append_empty_r, ?app_nil_r; reflexivity. }
    rewrite Hp, IH. destruct s; simpl.
    unfold with_completeResponse, with_sent; simpl.
    now rewrite append_assoc, <- app_assoc.
Qed.

(** The state after the stream has been read, before the history is
    touched. *)
Lemma streamAnswer_eq userQuery s :
  streamAnswer env userQuery s =
    let (parts, w) :=
      streamText env (AnswerPrompt userQuery (iteration s) (accumulatedKnowledge s))
        (world s) in
    let s1 :=
      with_completeResponse (streamedText parts)
        (with_sent (sent s ++ streamFrames parts) (with_world w s)) in
    if Js.truthy (Js.trim (streamedText parts))
    then (Ok tt,
          with_messages (messages s ++ [mkMessage "assistant" (streamedText parts)]) s1)
    else (Ok tt, s1).
Proof.
  unfold streamAnswer, fullStream. unfold bind at 1. unfold gets at 1.
  unfold bind at 1.
  destruct (streamText env _ (world s)) as [parts w].
  unfold bind at 1. unfold modify at 1. unfold bind at 1.
  rewrite forEachPart_eq. unfold bind at 1. unfold gets at 1.
  cbn [completeResponse with_completeResponse with_sent with_world append].
  destruct (Js.truthy (Js.trim (streamedText parts))); reflexivity.
Qed.

Lemma streamAnswer_ok userQuery s : fst (streamAnswer env userQuery s) = Ok tt.
Proof.
  rewrite streamAnswer_eq.
  destruct (streamText env _ (world s)) as [parts w]; cbv zeta.
  now destruct (Js.truthy _).
Qed.

Lemma streamAnswer_keeps userQuery s :
  let s' := snd (streamAnswer env userQuery s) in
  allFiles s' = allFiles s /\ iteration s' = iteration s /\
  accumulatedKnowledge s' = accumulatedKnowledge s.
Proof.
  rewrite streamAnswer_eq.
  destruct (streamText env _ (world s)) as [parts w]; cbv zeta.
  now destruct (Js.truthy _).
Qed.

Lemma rewriteQuery_ok userQuery s : fst (rewriteQuery env userQuery s) = Ok tt.
Proof.
  rewrite rewriteQuery_eq.
  destruct (previousUserMessages (messages s)); [reflexivity|].
  now destruct (generateText env _ (world s)) as [[text|msg] w].
Qed.

Lemma rewriteQuery_keeps userQuery s :
  let s' := snd (rewriteQuery env userQuery s) in
  allFiles s' = allFiles s /\ iteration s' = iteration s /\
  accumulatedKnowledge s' = accumulatedKnowledge s /\ messages s' = messages s.
Proof.
  rewrite rewriteQuery_eq.
  destruct (previousUserMessages (messages s)); [now repeat split|].
  now destruct (generateText env _ (world s)) as [[text|msg] w].
Qed.

(** *** The counter of the loop *)

(** One pass adds one to [iteration], however it ends, and goes round again
    only below the maximum. *)
Lemma iteration_body_counts userQuery s :
  iteration (snd (iteration_body env userQuery s)) = iteration s + 1 /\
  (fst (iteration_body env userQuery s) = Ok Continue ->
   iteration s + 1 < maxIterations) /\
  fst (iteration_body env userQuery s) <> OutOfFuel.
Proof.
  unfold iteration_body, afterKnowledge, knowledgePrompt. munfold.
  cbn [iteration with_iteration].
  match goal with |- context [generateKnowledge env ?p ?s0] =>
    pose proof (generateKnowledge_locals p s0) as (Hi & _);
    pose proof (generateKnowledge_fuel p s0) as Hf;
    destruct (generateKnowledge env p s0) as [[text|msg|] s1] end;
    cbn [fst snd iteration with_iteration] in *;
    [ | repeat split; [assumption | discriminate | discriminate]
      | congruence ].
  destruct (Js.truthy (Js.trim text));
    [ | repeat split; [assumption | discriminate | discriminate] ].
  cbn [iteration with_accumulatedKnowledge world].
  destruct (generateObject env _ (world s1)) as [[d|msg] w];
    [ | repeat split; [assumption | discriminate | discriminate] ].
  destruct (isKnowledgeEnough d); cbn [orb];
    [ repeat split; [assumption | discriminate | discriminate] | ].
  cbn [iteration with_world with_accumulatedKnowledge].
  destruct (Nat.leb_spec maxIterations (iteration s1)) as [Hle|Hlt];
    [ repeat split; [assumption | discriminate | discriminate] | ].
  destruct (nextSearchQuery d) as [q|];
    [ | repeat split; [assumption | discriminate | discriminate] ].
  destruct (Js.truthy q);
    repeat split; try assumption; try discriminate.
  intros _. rewrite <- Hi. exact Hlt.
Qed.

Lemma agentic_loop_bound fuel userQuery s :
  iteration s < maxIterations ->
  iteration (snd (agentic_loop env fuel userQuery s)) <= maxIterations.
Proof.
  revert s. induction fuel as [|fuel IH]; intros s Hlt; cbn [agentic_loop].
  - cbn [snd]. lia.
  - unfold bind.
    pose proof (iteration_body_counts userQuery s) as (Hi & Hc & _).
    destruct (iteration_body env userQuery s) as [[[|]|msg|] s1];
      unfold ret; cbn [fst snd] in *; try lia.
    apply IH. specialize (Hc eq_refl). lia.
Qed.

(** Five passes of fuel are enough: the loop never runs out. *)
Lemma agentic_loop_terminates fuel userQuery s :
  1 <= fuel -> maxIterations <= fuel + iteration s ->
  fst (agentic_loop env fuel userQuery s) <> OutOfFuel.
Proof.
  revert s. induction fuel as [|fuel IH]; intros s H1 H5; [lia|].
  cbn [agentic_loop]. unfold bind.
  pose proof (iteration_body_counts userQuery s) as (Hi & Hc & Hf).
  destruct (iteration_body env userQuery s) as [[[|]|msg|] s1];
    cbn [fst snd] in *; try discriminate; try congruence.
  specialize (Hc eq_refl). apply IH; lia.
Qed.

(** More fuel than needed changes nothing. *)
Lemma agentic_loop_fuel_irrelevant fuel extra userQuery s :
  fst (agentic_loop env fuel userQuery s) <> OutOfFuel ->
  agentic_loop env (fuel + extra) userQuery s = agentic_loop env fuel userQuery s.
Proof.
  revert s. induction fuel as [|fuel IH]; intros s H; cbn [agentic_loop] in *.
  - now contradiction H.
  - cbn [Nat.add agentic_loop]. unfold bind in *.
    destruct (iteration_body env userQuery s) as [[[|]|msg|] s1]; try reflexivity.
    now apply IH.
Qed.

(** *** What every step keeps true of [allFiles] *)

Section FilesInvariant.

Variable P : Js.Map FileRef -> Prop.
Hypothesis P_collect : forall files result, P files -> P (collectFile files result).

Lemma collectFiles_inv formattedResults files :
  P files -> P (collectFiles formattedResults files).
Proof.
  unfold collectFiles. revert files.
  induction formattedResults as [|r rs IH]; simpl; intros files H; auto.
Qed.

Lemma performSearch_inv query s :
  P (allFiles s) -> P (allFiles (snd (performSearch env query s))).
Proof.
  intros H. destruct (Js.truthy (selectedRag (state s))) eqn:Hrag.
  - rewrite performSearch_eq by assumption. cbv zeta.
    pose proof (searchStarted_files query s) as Hf.
    destruct (autorag_search _ _ _ _) as [[sr|msg] w];
      cbn [snd allFiles with_allFiles with_world].
    + destruct (data sr) as [[|r rs]|]; cbn [snd allFiles with_allFiles with_world];
        try (rewrite Hf; exact H).
      now apply collectFiles_inv.
    + rewrite Hf; exact H.
  - now rewrite performSearch_no_rag.
Qed.

Lemma run_session_inv session s :
  P (allFiles s) -> P (allFiles (snd (run_session env session s))).
Proof.
  revert s. induction session as [[text|msg]|query k IH]; intros s H; simpl; auto.
  unfold searchTool_execute.
  pose proof (performSearch_inv query s H) as Hp.
  destruct (performSearch env query s) as [[result|msg|] s1]; simpl in *; auto.
Qed.

Lemma generateKnowledge_inv prompt s :
  P (allFiles s) -> P (allFiles (snd (generateKnowledge env prompt s))).
Proof.
  intros H. unfold generateKnowledge.
  destruct (generateTextWithTools env prompt (world s)) as [session w].
  now apply run_session_inv.
Qed.

Lemma iteration_body_inv userQuery s :
  P (allFiles s) -> P (allFiles (snd (iteration_body env userQuery s))).
Proof.
  intros H. unfold iteration_body, afterKnowledge, knowledgePrompt. munfold. simpl.
  match goal with |- context [generateKnowledge env ?p ?s0] =>
    pose proof (generateKnowledge_inv p s0 H) as Hk;
    destruct (generateKnowledge env p s0) as [[text|msg|] s1] end; simpl in *; auto.
  destruct (Js.truthy (Js.trim text)); simpl; auto.
  destruct (generateObject env _ (world s1)) as [[d|msg] w]; simpl; auto.
  destruct (isKnowledgeEnough d || _)%bool; simpl; auto.
  destruct (nextSearchQuery d) as [q|]; simpl; auto.
  destruct (Js.truthy q); simpl; auto.
Qed.

Lemma agentic_loop_inv fuel userQuery s :
  P (allFiles s) -> P (allFiles (snd (agentic_loop env fuel userQuery s))).
Proof.
  revert s. induction fuel as [|fuel IH]; intros s H; simpl; auto.
  unfold bind.
  pose proof (iteration_body_inv userQuery s H) as Hb.
  destruct (iteration_body env userQuery s) as [[[|]|msg|] s1]; simpl in *; auto.
Qed.

Lemma preserves_bind A B (Q : Sys World -> Prop) (m : M World A) (f : A -> M World B) :
  preserves Q m -> (forall a, preserves Q (f a)) -> preserves Q (bind m f).
Proof.
  intros Hm Hf s HQ. unfold bind. specialize (Hm s HQ).
  destruct (m s) as [[a|msg|] s1]; cbn [snd] in *; auto. now apply Hf.
Qed.

Lemma afterKnowledge_keeps userQuery newKnowledge s :
  let s' := snd (afterKnowledge env userQuery newKnowledge s) in
  allFiles s' = allFiles s /\ iteration s' = iteration s /\
  messages s' = messages s /\ sent s' = sent s.
Proof.
  unfold afterKnowledge. munfold.
  destruct (Js.truthy (Js.trim newKnowledge)); [|now repeat split].
  cbn [world with_accumulatedKnowledge iteration accumulatedKnowledge].
  destruct (generateObject env _ (world s)) as [[d|msg] w]; [|now repeat split].
  destruct (isKnowledgeEnough d || _)%bool; [now repeat split|].
  destruct (nextSearchQuery d) as [q|]; [|now repeat split].
  destruct (Js.truthy q); now repeat split.
Qed.

Lemma answerAndReturn_inv userQuery :
  preserves (fun s => P (allFiles s)) (answerAndReturn env userQuery).
Proof.
  unfold answerAndReturn. apply preserves_bind.
  { intros s H. now rewrite (proj1 (streamAnswer_keeps userQuery s)). }
  intros _. apply preserves_bind; [intros s H; exact H | intros files s H; exact H].
Qed.

Lemma continueTurn_inv session fuel userQuery :
  preserves (fun s => P (allFiles s)) (continueTurn env session fuel userQuery).
Proof.
  unfold continueTurn.
  apply preserves_bind; [intros s; apply run_session_inv | intros text].
  apply preserves_bind.
  { intros s H. now rewrite (proj1 (afterKnowledge_keeps userQuery text s)). }
  intros c. apply preserves_bind.
  { destruct c; [intros s; apply agentic_loop_inv | intros s H; exact H]. }
  intros _. apply answerAndReturn_inv.
Qed.



End FilesInvariant.

(** *** Results of sequenced code *)

Lemma bind_ok A B (m : M World A) (f : A -> M World B) s b s' :
  bind m f s = (Ok b, s') ->
  exists a s1, m s = (Ok a, s1) /\ f a s1 = (Ok b, s').
Proof.
  unfold bind. destruct (m s) as [[a|msg|] s1]; intros H; try discriminate.
  now exists a, s1.
Qed.

Lemma answerAndReturn_returns userQuery s files s' :
  answerAndReturn env userQuery s = (Ok files, s') ->
  files = Js.values (allFiles s').
Proof.
  unfold answerAndReturn. intros H.
  apply bind_ok in H as (_ & s2 & _ & H).
  apply bind_ok in H as (m & s3 & Hg & H).
  unfold gets, ret in *. now inversion Hg; inversion H; subst.
Qed.

Lemma loopAndAnswer_returns fuel userQuery s files s' :
  loopAndAnswer env fuel userQuery s = (Ok files, s') ->
  files = Js.values (allFiles s').
Proof.
  unfold loopAndAnswer. intros H.
  apply bind_ok in H as (_ & s1 & _ & H).
  now apply answerAndReturn_returns in H.
Qed.


Lemma streamWithMultiStepTools_returns fuel s files s' :
  streamWithMultiStepTools env fuel s = (Ok files, s') ->
  files = Js.values (allFiles s').
Proof.
  unfold streamWithMultiStepTools. intros H.
  apply bind_ok in H as (_ & s1 & _ & H).
  apply bind_ok in H as (msgs & s2 & _ & H).
  destruct (lastMessage msgs) as [current|]; [|discriminate].
  apply bind_ok in H as (_ & s3 & _ & H).
  apply bind_ok in H as (_ & s4 & _ & H).
  now apply loopAndAnswer_returns in H.
Qed.

(** One pass of the loop is the knowledge generation call followed by the rest
    of the turn. *)
Lemma loopAndAnswer_continueTurn fuel userQuery s :
  let s0 := with_iteration (iteration s + 1) s in
  let (session, w) :=
    generateTextWithTools env (knowledgePrompt userQuery s0) (world s) in
  loopAndAnswer env (S fuel) userQuery s =
  continueTurn env session fuel userQuery (with_world w s0).
Proof.
  cbv zeta. unfold loopAndAnswer, continueTurn. cbn [agentic_loop].
  unfold iteration_body, generateKnowledge, bind, modify, gets.
  cbn [world with_iteration].
  destruct (generateTextWithTools env _ (world s)) as [session w].
  destruct (run_session env session _) as [[text|msg|] s1]; try reflexivity.
  destruct (afterKnowledge env userQuery text s1) as [[c|msg|] s2]; reflexivity.
Qed.

(** *** Registration of files *)







Lemma mapi_in A B (f : nat -> A -> B) (i : nat) (l : list A) (b : B) :
  In b (mapi f i l) -> exists j a, In a l /\ b = f j a.
Proof.
  revert i. induction l as [|a l IH]; intros i; cbn [mapi]; [intros []|].
  intros [<-|H].
  - exists i, a. split; [now left | reflexivity].
  - destruct (IH _ H) as (j & a' & Ha & ->). exists j, a'. split; [now right | reflexivity].
Qed.




(** A search that finds documents: what is returned and what is filed. *)
Lemma performSearch_found query s searchResults w results :
  Js.truthy (selectedRag (state s)) = true ->
  autorag_search env (selectedRag (state s)) query (world (searchStarted env query s))
    = (Resolved searchResults, w) ->
  data searchResults = Some results ->
  results <> [] ->
  performSearch env query s =
    (Ok (documentsFound query searchResults (mapi formatResult 0 results)),
     with_allFiles (collectFiles (mapi formatResult 0 results) (allFiles s))
       (with_world w (searchStarted env query s))).
Proof.
  intros Hrag Hsearch Hdata Hne. rewrite performSearch_eq by assumption.
  cbv zeta. rewrite Hsearch, Hdata. destruct results; [contradiction | reflexivity].
Qed.


(** *** The session and the turn around a tool invocation *)

Lemma continueTurn_tool_ok query k fuel userQuery s result s' :
  performSearch env query s = (Ok result, s') ->
  run_session env (CallTool query k) s = run_session env (k (Resolved result)) s' /\
  continueTurn env (CallTool query k) fuel userQuery s =
  continueTurn env (k (Resolved result)) fuel userQuery s'.
Proof.
  intros H. unfold continueTurn, bind. cbn [run_session].
  unfold searchTool_execute. now rewrite H.
Qed.

Lemma continueTurn_tool_throw query k fuel userQuery s message s' :
  performSearch env query s = (Throw message, s') ->
  run_session env (CallTool query k) s = run_session env (k (Rejected message)) s' /\
  continueTurn env (CallTool query k) fuel userQuery s =
  continueTurn env (k (Rejected message)) fuel userQuery s'.
Proof.
  intros H. unfold continueTurn, bind. cbn [run_session].
  unfold searchTool_execute. now rewrite H.
Qed.

Lemma streamWithMultiStepTools_eq fuel s current :
  lastMessage (messages s) = Some current ->
  streamWithMultiStepTools env fuel s =
  loopAndAnswer env fuel (content current) (loopEntry env (content current) s).
Proof.
  intros H. unfold streamWithMultiStepTools, loopEntry, freshLocals.
  unfold bind at 1. unfold modify at 1. unfold bind at 1. unfold gets at 1.
  cbn [messages with_allFiles with_accumulatedKnowledge with_iteration].
  rewrite H. unfold bind at 1. unfold modify at 1. unfold bind at 1.
  match goal with |- context [rewriteQuery env ?q ?s0] =>
    pose proof (rewriteQuery_ok q s0) as Hok;
    destruct (rewriteQuery env q s0) as [r s1] eqn:E end.
  cbn [fst] in Hok. subst r.
  match goal with |- _ = loopAndAnswer _ _ _ (snd ?x) =>
    replace x with (@Ok unit tt, s1); [reflexivity|] end.
  rewrite <- E. reflexivity.
Qed.

Lemma streamWithMultiStepTools_no_message fuel s :
  lastMessage (messages s) = None ->
  streamWithMultiStepTools env fuel s =
  (Throw undefinedContentMessage,
   with_allFiles [] (with_accumulatedKnowledge [] (with_iteration 0 s))).
Proof.
  intros H. unfold streamWithMultiStepTools. munfold.
  cbn [messages with_allFiles with_accumulatedKnowledge with_iteration].
  now rewrite H.
Qed.

(** After a run that returns, the files go out in one [files] frame, when
    there are any, and [finish] follows. *)
Lemma processAndStreamResponse_sends fuel s files s' :
  streamWithMultiStepTools env fuel s = (Ok files, s') ->
  processAndStreamResponse env fuel s =
    (Ok tt,
     with_sent (sent s' ++ (if (0 <? List.length files)%nat then [FFiles files] else [])
                        ++ [FFinish])
       (with_storage (Some (messages s')) s')).
Proof.
  intros H. unfold processAndStreamResponse, persistMessages. unfold bind at 1.
  rewrite H. munfold. destruct s'; destruct files; cbn; unfold with_sent; cbn;
    rewrite <- ?app_assoc; reflexivity.
Qed.

(** Whatever [streamWithMultiStepTools] throws, [onMessage] catches: one
    [error] frame, no [files], no [finish], nothing persisted after it. *)
Lemma onMessage_surfaces fuel data msgs s message s1 :
  in_messages data = Some msgs ->
  streamWithMultiStepTools env fuel (received data msgs s) = (Throw message, s1) ->
  onMessage env fuel data s = (Ok tt, with_sent (sent s1 ++ [FError message]) s1).
Proof.
  intros Hm Hthrow. unfold onMessage, received in *. rewrite Hm.
  unfold try_catch.
  assert (Hok : fst (bind (updateSelectedRag data) (fun _ => addMessages msgs) s) = Ok tt).
  { unfold updateSelectedRag, addMessages, persistMessages. munfold.
    destruct (in_selectedRag data) as [rag|]; [destruct (Js.truthy rag)|];
      cbn [storage with_state]; destruct (storage s); reflexivity. }
  unfold bind at 1. unfold bind at 1 in Hok. unfold bind at 1 in Hthrow.
  destruct (updateSelectedRag data s) as [[[]|m0|] s0]; try discriminate.
  unfold bind at 1.
  destruct (addMessages msgs s0) as [[[]|m1|] s2]; try discriminate.
  cbn [snd] in Hthrow. unfold processAndStreamResponse. unfold bind at 1.
  rewrite Hthrow. reflexivity.
Qed.

End AgentFacts.

(** *** One pass of the loop, case by case *)

Section LoopFacts.

Variable World : Type.
Variable env : Env World.
Implicit Types (s : Sys World) (userQuery : string).

Lemma iteration_body_eq userQuery s :
  iteration_body env userQuery s =
  let s0 := with_iteration (iteration s + 1) s in
  bind (generateKnowledge env (knowledgePrompt userQuery s0))
       (afterKnowledge env userQuery) s0.
Proof. reflexivity. Qed.

Lemma afterKnowledge_blank userQuery newKnowledge s :
  Js.truthy (Js.trim newKnowledge) = false ->
  afterKnowledge env userQuery newKnowledge s = (Ok Break, s).
Proof. intros H. unfold afterKnowledge. now rewrite H. Qed.

Lemma afterKnowledge_decided userQuery newKnowledge s decision w :
  Js.truthy (Js.trim newKnowledge) = true ->
  generateObject env
    (EvaluationPrompt userQuery (iteration s) (accumulatedKnowledge s ++ [newKnowledge]))
    (world s) = (Resolved decision, w) ->
  afterKnowledge env userQuery newKnowledge s =
    let s2 := with_world w
                (with_accumulatedKnowledge (accumulatedKnowledge s ++ [newKnowledge]) s) in
    if isKnowledgeEnough decision || (maxIterations <=? iteration s)%nat
    then (Ok Break, s2)
    else match nextSearchQuery decision with
         | Some q => if Js.truthy q
                     then (Ok Continue, with_currentSearchQuery q s2)
                     else (Ok Break, s2)
         | None => (Ok Break, s2)
         end.
Proof.
  intros Ht Hd. unfold afterKnowledge. rewrite Ht. munfold.
  cbn [world with_accumulatedKnowledge iteration accumulatedKnowledge].
  rewrite Hd. cbv zeta.
  destruct (isKnowledgeEnough decision || _)%bool; [reflexivity|].
  destruct (nextSearchQuery decision) as [q|]; [|reflexivity].
  now destruct (Js.truthy q).
Qed.

Lemma afterKnowledge_rejected userQuery newKnowledge s message w :
  Js.truthy (Js.trim newKnowledge) = true ->
  generateObject env
    (EvaluationPrompt userQuery (iteration s) (accumulatedKnowledge s ++ [newKnowledge]))
    (world s) = (Rejected message, w) ->
  afterKnowledge env userQuery newKnowledge s =
    (Throw message,
     with_world w
       (with_accumulatedKnowledge (accumulatedKnowledge s ++ [newKnowledge]) s)).
Proof.
  intros Ht Hd. unfold afterKnowledge. rewrite Ht. munfold.
  cbn [world with_accumulatedKnowledge iteration accumulatedKnowledge].
  now rewrite Hd.
Qed.

Lemma agentic_loop_step fuel userQuery s c s' :
  iteration_body env userQuery s = (Ok c, s') ->
  agentic_loop env (S fuel) userQuery s =
    match c with
    | Break => (Ok tt, s')
    | Continue => agentic_loop env fuel userQuery s'
    end.
Proof. intros H. cbn [agentic_loop]. unfold bind. rewrite H. now destruct c. Qed.

Lemma passes_loop userQuery n s0 s :
  passes env userQuery n s0 s ->
  forall fuel, agentic_loop env (n + fuel) userQuery s0 = agentic_loop env fuel userQuery s.
Proof.
  induction 1 as [s|n s0 s1 s2 _ IH Hbody]; intros fuel; [reflexivity|].
  replace (S n + fuel) with (n + S fuel) by lia.
  rewrite IH. now rewrite (agentic_loop_step fuel userQuery s1 Hbody).
Qed.

(** Wherever a turn is in its loop, what is left of it is [continueTurn]. *)
Lemma loopAndAnswer_after_passes userQuery n fuel s0 s :
  passes env userQuery n s0 s ->
  let s' := with_iteration (iteration s + 1) s in
  let (session, w) :=
    generateTextWithTools env (knowledgePrompt userQuery s') (world s) in
  loopAndAnswer env (n + S fuel) userQuery s0 =
  continueTurn env session fuel userQuery (with_world w s').
Proof.
  intros Hp. pose proof (loopAndAnswer_continueTurn env fuel userQuery s) as H.
  cbv zeta in *.
  destruct (generateTextWithTools env _ (world s)) as [session w].
  rewrite <- H. unfold loopAndAnswer, bind. now rewrite (passes_loop Hp).
Qed.

Lemma passes_iteration userQuery n s0 s :
  passes env userQuery n s0 s -> iteration s = iteration s0 + n.
Proof.
  induction 1 as [s|n s0 s1 s2 _ IH Hbody]; [lia|].
  pose proof (iteration_body_counts env userQuery s1) as (Hi & _).
  rewrite Hbody in Hi. cbn [snd] in Hi. lia.
Qed.

(** The knowledge generation call of a pass, when the session yields. *)
Lemma generateKnowledge_yields prompt s :
  yields_knowledge (fst (generateTextWithTools env prompt (world s))) ->
  exists text s1,
    generateKnowledge env prompt s = (Ok text, s1) /\
    Js.truthy (Js.trim text) = true /\ same_locals s s1.
Proof.
  intros Hy. pose proof (generateKnowledge_locals env prompt s) as Hl.
  unfold generateKnowledge in *.
  destruct (generateTextWithTools env prompt (world s)) as [session w].
  cbn [fst] in Hy.
  destruct (run_session_yields env (with_world w s) Hy) as (text & s1 & Hrun & Ht).
  rewrite Hrun in *. now exists text, s1.
Qed.

(** With an extractor that always yields and an evaluator that, below the
    maximum, never is satisfied and always names a next query, the loop goes
    on to the maximum and stops there. *)
Lemma agentic_loop_to_the_maximum userQuery :
  (forall p w, yields_knowledge (fst (generateTextWithTools env p w))) ->
  (forall i knowledge w, exists d w',
      generateObject env (EvaluationPrompt userQuery i knowledge) w = (Resolved d, w') /\
      (i < maxIterations ->
       isKnowledgeEnough d = false /\ Js.truthy_opt (nextSearchQuery d) = true)) ->
  forall fuel s,
    iteration s < maxIterations ->
    maxIterations - iteration s <= fuel ->
    exists s5,
      agentic_loop env fuel userQuery s = (Ok tt, s5) /\
      iteration s5 = maxIterations /\
      List.length (accumulatedKnowledge s5) =
        List.length (accumulatedKnowledge s) + (maxIterations - iteration s).
Proof.
  intros Hy He. induction fuel as [|fuel IH]; intros s Hlt Hfuel; [lia|].
  set (s0 := with_iteration (iteration s + 1) s).
  destruct (generateKnowledge_yields (knowledgePrompt userQuery s0) s0 (Hy _ _))
    as (text & s1 & Hgen & Ht & Hi & Hq & Hk & _).
  destruct (He (iteration s1) (accumulatedKnowledge s1 ++ [text])%list (world s1))
    as (d & w & Hd & Hbelow).
  pose proof (afterKnowledge_decided userQuery text s1 Ht Hd) as Hafter.
  cbv zeta in Hafter.
  assert (Hbody : iteration_body env userQuery s =
                  afterKnowledge env userQuery text s1).
  { rewrite iteration_body_eq. cbv zeta. fold s0. unfold bind. now rewrite Hgen. }
  subst s0. cbn [iteration accumulatedKnowledge with_iteration] in Hi, Hk.
  destruct (Nat.eq_dec (iteration s + 1) maxIterations) as [Hmax|Hnot].
  - rewrite Hi, Hmax, Nat.leb_refl, orb_true_r in Hafter.
    rewrite <- Hbody in Hafter.
    rewrite (agentic_loop_step fuel userQuery s Hafter).
    eexists; split; [reflexivity|].
    cbn [iteration accumulatedKnowledge with_world with_accumulatedKnowledge].
    split; [lia|]. rewrite length_app, Hk. cbn [List.length]. lia.
  - destruct Hbelow as [Hno Hnext]; [lia|].
    rewrite Hno in Hafter. cbn [orb] in Hafter.
    destruct (Nat.leb_spec maxIterations (iteration s1)) as [Hle|_]; [lia|].
    destruct (nextSearchQuery d) as [q|]; [|discriminate].
    cbn [Js.truthy_opt] in Hnext. rewrite Hnext in Hafter.
    rewrite <- Hbody in Hafter.
    rewrite (agentic_loop_step fuel userQuery s Hafter).
    match goal with |- context [agentic_loop env fuel userQuery ?s3] =>
      destruct (IH s3) as (s5 & Hloop & H5 & Hlen) end.
    + cbn [iteration with_currentSearchQuery with_world with_accumulatedKnowledge]. lia.
    + cbn [iteration with_currentSearchQuery with_world with_accumulatedKnowledge]. lia.
    + exists s5. split; [exact Hloop|]. split; [exact H5|].
      rewrite Hlen.
      cbn [iteration accumulatedKnowledge with_currentSearchQuery with_world
             with_accumulatedKnowledge].
      rewrite length_app, Hk. cbn [List.length]. lia.
Qed.

Lemma loopEntry_locals userQuery s :
  iteration (loopEntry env userQuery s) = 0 /\
  accumulatedKnowledge (loopEntry env userQuery s) = [] /\
  allFiles (loopEntry env userQuery s) = [] /\
  messages (loopEntry env userQuery s) = messages s.
Proof.
  unfold loopEntry.
  pose proof (rewriteQuery_keeps env userQuery (freshLocals userQuery s))
    as (Hf & Hi & Hk & Hm).
  rewrite Hf, Hi, Hk, Hm. now repeat split.
Qed.

Lemma answerAndReturn_keeps userQuery s :
  iteration (snd (answerAndReturn env userQuery s)) = iteration s /\
  fst (answerAndReturn env userQuery s) <> OutOfFuel.
Proof.
  unfold answerAndReturn, bind, gets, ret.
  pose proof (streamAnswer_keeps env userQuery s) as (_ & Hi & _).
  pose proof (streamAnswer_ok env userQuery s) as Hok.
  destruct (streamAnswer env userQuery s) as [r s1]. cbn [fst snd] in *. subst r.
  cbn [fst snd]. split; [exact Hi | discriminate].
Qed.

End LoopFacts.

(* ================================================================== *)
(** ** The search tool and the files it registers *)

Section SearchClaims.

Variable World : Type.
Variable env : Env World.
Implicit Types (s : Sys World) (query userQuery : string).



(** C5.  When the underlying search call fails, [performSearch] does not
    throw: it returns the object [{success: false, error, message, results}]
    with the message of the failure, files nothing, and touches none of the
    loop's locals; the session receives that object as the result of its tool
    invocation and the turn goes on from there. *)
Theorem C5_search_failure_is_contained :
  forall query k fuel userQuery s message w,
    Js.truthy (selectedRag (state s)) = true ->
    autorag_search env (selectedRag (state s)) query
      (world (searchStarted env query s)) = (Rejected message, w) ->
    let s' := with_world w (searchStarted env query s) in
    performSearch env query s = (Ok (searchFailed message), s') /\
    tr_success (searchFailed message) = false /\
    tr_message (searchFailed message) = Some message /\
    allFiles s' = allFiles s /\
    same_locals s s' /\
    run_session env (CallTool query k) s =
      run_session env (k (Resolved (searchFailed message))) s' /\
    continueTurn env (CallTool query k) fuel userQuery s =
      continueTurn env (k (Resolved (searchFailed message))) fuel userQuery s'.
Proof.
  intros query k fuel userQuery s message w Hrag Hsearch s'.
  assert (Hrun : performSearch env query s = (Ok (searchFailed message), s')).
  { rewrite performSearch_eq by assumption. cbv zeta. now rewrite Hsearch. }
  split; [exact Hrun|]. split; [reflexivity|]. split; [reflexivity|].
  split; [subst s'; cbn [allFiles with_world]; apply searchStarted_files|].
  split.
  { pose proof (performSearch_locals env query s) as H. now rewrite Hrun in H. }
  apply continueTurn_tool_ok. exact Hrun.
Qed.

End SearchClaims.

(* ================================================================== *)
(** ** The loop *)

Section LoopClaims.

Variable World : Type.
Variable env : Env World.
Implicit Types (s : Sys World) (userQuery : string).

(** C1 (amended).  In every run of [streamWithMultiStepTools], also one that
    ends in an error, [iteration] never gets past [maxIterations] = 5, and
    five passes of fuel are enough for the loop to end by itself.  When the
    extractor yields a text that is not blank in every pass and the evaluator,
    below the maximum, never is satisfied and always names a next query, the
    loop makes exactly five passes and stops after the fifth whatever the
    fifth decision says; the function then goes on to the final answer. *)
Theorem C1_at_most_five_passes :
  forall fuel s,
    iteration (snd (streamWithMultiStepTools env fuel s)) <= maxIterations /\
    (maxIterations <= fuel ->
     fst (streamWithMultiStepTools env fuel s) <> OutOfFuel) /\
    (forall current,
        lastMessage (messages s) = Some current ->
        (forall p w, yields_knowledge (fst (generateTextWithTools env p w))) ->
        (forall i knowledge w, exists d w',
            generateObject env (EvaluationPrompt (content current) i knowledge) w
              = (Resolved d, w') /\
            (i < maxIterations ->
             isKnowledgeEnough d = false /\
             Js.truthy_opt (nextSearchQuery d) = true)) ->
        maxIterations <= fuel ->
        exists s5,
          agentic_loop env fuel (content current) (loopEntry env (content current) s)
            = (Ok tt, s5) /\
          iteration s5 = maxIterations /\
          List.length (accumulatedKnowledge s5) = maxIterations /\
          streamWithMultiStepTools env fuel s =
            answerAndReturn env (content current) s5).
Proof.
  intros fuel s.
  destruct (lastMessage (messages s)) as [current|] eqn:Hlast.
  - rewrite (streamWithMultiStepTools_eq env fuel s Hlast).
    set (userQuery := content current).
    destruct (loopEntry_locals env userQuery s) as (Hi0 & Hk0 & _).
    unfold loopAndAnswer, bind.
    pose proof (@agentic_loop_bound _ env fuel userQuery (loopEntry env userQuery s)) as Hb.
    pose proof (@agentic_loop_terminates _ env fuel userQuery (loopEntry env userQuery s)) as Ht.
    rewrite Hi0 in Hb, Ht. unfold maxIterations in Hb at 1.
    specialize (Hb ltac:(lia)).
    split; [|split].
    + destruct (agentic_loop env fuel userQuery _) as [[[]|msg|] s1]; cbn [snd] in *;
        try exact Hb.
      now rewrite (proj1 (answerAndReturn_keeps env userQuery s1)).
    + intros Hfuel. unfold maxIterations in Hfuel, Ht. specialize (Ht ltac:(lia) ltac:(lia)).
      destruct (agentic_loop env fuel userQuery _) as [[[]|msg|] s1]; cbn [fst] in *;
        try discriminate; try congruence.
      apply answerAndReturn_keeps.
    + intros current' Hc Hy He Hfuel. inversion Hc; subst current'. fold userQuery in He.
      destruct (@agentic_loop_to_the_maximum _ env userQuery Hy He fuel
                  (loopEntry env userQuery s)) as (s5 & Hloop & H5 & Hlen).
      * rewrite Hi0. unfold maxIterations. lia.
      * rewrite Hi0. lia.
      * exists s5. rewrite Hloop. rewrite Hk0, Hi0 in Hlen.
        cbn [List.length] in Hlen. repeat split; try assumption; lia.
  - rewrite (streamWithMultiStepTools_no_message env fuel s Hlast). cbn [fst snd].
    cbn [iteration with_allFiles with_accumulatedKnowledge with_iteration].
    split; [unfold maxIterations; lia|]. split; [discriminate|].
    intros current Hc. discriminate.
Qed.

(** C2.  Take the loop entered in state [s0] with the counter at 0, in its
    k-th pass (k - 1 passes before it went round again), where the extractor
    returns a text that is not blank and the evaluator returns [decision].
    If the decision is sufficient, the loop ends there: exactly k passes.
    If it is not, k is below the maximum and the next query is a non-empty
    string, the loop goes round again with [currentSearchQuery] set to it, and
    the prompt of pass k + 1 carries it.  If no next query is present
    (absent, or the empty string), the loop ends there. *)
Theorem C2_stop_when_sufficient_else_follow_next_query :
  forall n fuel userQuery s0 s newKnowledge s1 decision w,
    iteration s0 = 0 ->
    passes env userQuery n s0 s ->
    S n <= fuel ->
    generateKnowledge env
      (knowledgePrompt userQuery (with_iteration (iteration s + 1) s))
      (with_iteration (iteration s + 1) s) = (Ok newKnowledge, s1) ->
    Js.truthy (Js.trim newKnowledge) = true ->
    generateObject env
      (EvaluationPrompt userQuery (S n) (accumulatedKnowledge s ++ [newKnowledge]))
      (world s1) = (Resolved decision, w) ->
    let s2 := with_world w
                (with_accumulatedKnowledge (accumulatedKnowledge s ++ [newKnowledge]) s1) in
    iteration s2 = S n /\
    (isKnowledgeEnough decision = true ->
     agentic_loop env fuel userQuery s0 = (Ok tt, s2)) /\
    (isKnowledgeEnough decision = false ->
     S n < maxIterations ->
     forall q, nextSearchQuery decision = Some q -> q <> "" ->
       passes env userQuery (S n) s0 (with_currentSearchQuery q s2) /\
       agentic_loop env fuel userQuery s0 =
         agentic_loop env (fuel - S n) userQuery (with_currentSearchQuery q s2) /\
       knowledgePrompt userQuery
         (with_iteration (iteration s2 + 1) (with_currentSearchQuery q s2)) =
         KnowledgePrompt userQuery q false (accumulatedKnowledge s ++ [newKnowledge])) /\
    (Js.truthy_opt (nextSearchQuery decision) = false ->
     agentic_loop env fuel userQuery s0 = (Ok tt, s2)).
Proof.
  intros n fuel userQuery s0 s newKnowledge s1 decision w
         H0 Hpasses Hfuel Hgen Ht Hd s2.
  pose proof (passes_iteration Hpasses) as Hn. rewrite H0 in Hn. cbn [Nat.add] in Hn.
  pose proof (generateKnowledge_locals env
                (knowledgePrompt userQuery (with_iteration (iteration s + 1) s))
                (with_iteration (iteration s + 1) s)) as Hl.
  rewrite Hgen in Hl. cbn [snd] in Hl. destruct Hl as (Hi & _ & Hk & _).
  cbn [iteration accumulatedKnowledge with_iteration] in Hi, Hk.
  assert (Hi1 : iteration s1 = S n) by lia.
  rewrite <- Hi1, <- Hk in Hd.
  pose proof (afterKnowledge_decided env userQuery newKnowledge s1 Ht Hd) as Hafter.
  cbv zeta in Hafter. rewrite Hk in Hafter. fold s2 in Hafter.
  assert (Hbody : iteration_body env userQuery s =
                  afterKnowledge env userQuery newKnowledge s1).
  { rewrite iteration_body_eq. cbv zeta. unfold bind. now rewrite Hgen. }
  rewrite <- Hbody in Hafter.
  assert (Hloop : forall c s', iteration_body env userQuery s = (Ok c, s') ->
            agentic_loop env fuel userQuery s0 =
            match c with
            | Break => (Ok tt, s')
            | Continue => agentic_loop env (fuel - S n) userQuery s'
            end).
  { intros c s' Hb. replace fuel with (n + S (fuel - S n)) at 1 by lia.
    rewrite (passes_loop Hpasses). apply agentic_loop_step. exact Hb. }
  split; [exact Hi1|]. split; [|split].
  - intros Henough. rewrite Henough in Hafter. cbn [orb] in Hafter.
    exact (Hloop _ _ Hafter).
  - intros Hno Hbelow q Hq Hne. rewrite Hno, Hq in Hafter. cbn [orb] in Hafter.
    destruct (Nat.leb_spec maxIterations (iteration s1)) as [Hle|_]; [lia|].
    assert (Htq : Js.truthy q = true) by (destruct q; [contradiction | reflexivity]).
    rewrite Htq in Hafter.
    split; [exact (passes_more Hpasses Hafter)|].
    split; [exact (Hloop _ _ Hafter)|].
    unfold knowledgePrompt. subst s2.
    cbn [iteration currentSearchQuery accumulatedKnowledge with_iteration
           with_currentSearchQuery with_world with_accumulatedKnowledge].
    rewrite Hi1. replace (S n + 1) with (S (S n)) by lia. reflexivity.
  - intros Hnone.
    assert (Hstop : iteration_body env userQuery s = (Ok Break, s2)).
    { rewrite Hafter. destruct (isKnowledgeEnough decision || _)%bool; [reflexivity|].
      destruct (nextSearchQuery decision) as [q|]; [|reflexivity].
      cbn [Js.truthy_opt] in Hnone. now rewrite Hnone. }
    exact (Hloop _ _ Hstop).
Qed.

(** C6.  When the text the extractor returns is empty after trimming, the
    pass ends the loop at once: the text is not pushed onto
    [accumulatedKnowledge], the evaluator is not called (replacing it by any
    other changes nothing), and the function goes on to the final answer from
    the very state the extraction left. *)
Theorem C6_blank_knowledge_skips_evaluation :
  forall fuel userQuery s newKnowledge s1,
    generateKnowledge env
      (knowledgePrompt userQuery (with_iteration (iteration s + 1) s))
      (with_iteration (iteration s + 1) s) = (Ok newKnowledge, s1) ->
    Js.trim newKnowledge = "" ->
    iteration_body env userQuery s = (Ok Break, s1) /\
    agentic_loop env (S fuel) userQuery s = (Ok tt, s1) /\
    accumulatedKnowledge s1 = accumulatedKnowledge s /\
    iteration s1 = iteration s + 1 /\
    loopAndAnswer env (S fuel) userQuery s = answerAndReturn env userQuery s1 /\
    (forall evaluator,
        loopAndAnswer (withGenerateObject evaluator env) (S fuel) userQuery s =
        loopAndAnswer env (S fuel) userQuery s).
Proof.
  intros fuel userQuery s newKnowledge s1 Hgen Hblank.
  assert (Ht : Js.truthy (Js.trim newKnowledge) = false) by now rewrite Hblank.
  assert (Hbody : forall e : Env World,
             generateKnowledge e
               (knowledgePrompt userQuery (with_iteration (iteration s + 1) s))
               (with_iteration (iteration s + 1) s) = (Ok newKnowledge, s1) ->
             iteration_body e userQuery s = (Ok Break, s1)).
  { intros e He. rewrite iteration_body_eq. cbv zeta. unfold bind. rewrite He.
    now apply afterKnowledge_blank. }
  pose proof (generateKnowledge_locals env
                (knowledgePrompt userQuery (with_iteration (iteration s + 1) s))
                (with_iteration (iteration s + 1) s)) as Hl.
  rewrite Hgen in Hl. cbn [snd] in Hl. destruct Hl as (Hi & _ & Hk & _).
  cbn [iteration accumulatedKnowledge with_iteration] in Hi, Hk.
  assert (Hloop : forall e : Env World,
             iteration_body e userQuery s = (Ok Break, s1) ->
             loopAndAnswer e (S fuel) userQuery s = answerAndReturn e userQuery s1).
  { intros e He. unfold loopAndAnswer. unfold bind at 1.
    now rewrite (@agentic_loop_step _ e fuel userQuery s _ _ He). }
  split; [now apply Hbody|].
  split; [now rewrite (@agentic_loop_step _ env fuel userQuery s _ _ (Hbody env Hgen))|].
  split; [exact Hk|]. split; [exact Hi|].
  split; [now apply Hloop, Hbody|].
  intros evaluator. rewrite (Hloop env (Hbody env Hgen)).
  rewrite (Hloop (withGenerateObject evaluator env)); [reflexivity|].
  apply Hbody. exact Hgen.
Qed.

End LoopClaims.

(* ================================================================== *)
(** ** Query rewriting and the final answer *)

Section TurnClaims.

Variable World : Type.
Variable env : Env World.
Implicit Types (s : Sys World) (userQuery : string).

Lemma lastMessage_snoc (before : list Message) (current : Message) :
  lastMessage (before ++ [current]) = Some current.
Proof.
  induction before as [|m before IH]; [reflexivity|].
  cbn [app lastMessage]. rewrite IH.
  destruct (before ++ [current])%list eqn:E; [|reflexivity].
  now destruct before.
Qed.

Lemma previousUserMessages_none (before : list Message) (current : Message) :
  (forall m, In m before -> role m <> "user") ->
  previousUserMessages (before ++ [current]) = [].
Proof.
  intros H. unfold previousUserMessages. rewrite removelast_last.
  induction before as [|m before IH]; [reflexivity|]. cbn [filter].
  destruct (String.eqb_spec (role m) "user") as [Heq|_].
  - exfalso. apply (H m); [now left | exact Heq].
  - apply IH. intros m' Hm'. apply H. now right.
Qed.

(** C7.  When no message before the current one has the role [user], the
    query is not rewritten: the loop is entered with [currentSearchQuery]
    equal to the content of the current message, no frame has been sent and
    the outside world has not been touched; the text generation service takes
    no part in the turn (replacing it by any other changes nothing). *)
Theorem C7_no_previous_user_message_no_rewrite :
  forall fuel s before current,
    messages s = (before ++ [current])%list ->
    (forall m, In m before -> role m <> "user") ->
    let userQuery := content current in
    rewriteQuery env userQuery (freshLocals userQuery s)
      = (Ok tt, freshLocals userQuery s) /\
    currentSearchQuery (loopEntry env userQuery s) = userQuery /\
    world (loopEntry env userQuery s) = world s /\
    sent (loopEntry env userQuery s) = sent s /\
    streamWithMultiStepTools env fuel s =
      loopAndAnswer env fuel userQuery (freshLocals userQuery s) /\
    (forall rewriter,
        streamWithMultiStepTools (withGenerateText rewriter env) fuel s =
        streamWithMultiStepTools env fuel s).
Proof.
  intros fuel s before current Hm Hnone userQuery.
  assert (Hlast : lastMessage (messages s) = Some current)
    by (rewrite Hm; apply lastMessage_snoc).
  assert (Hrw : forall e : Env World,
             rewriteQuery e userQuery (freshLocals userQuery s)
             = (Ok tt, freshLocals userQuery s)).
  { intros e. rewrite rewriteQuery_eq.
    unfold freshLocals at 1.
    cbn [messages with_currentSearchQuery with_allFiles with_accumulatedKnowledge
           with_iteration].
    rewrite Hm. now rewrite (@previousUserMessages_none before current Hnone). }
  assert (Hentry : forall e : Env World,
             loopEntry e userQuery s = freshLocals userQuery s).
  { intros e. unfold loopEntry. now rewrite Hrw. }
  split; [apply Hrw|]. rewrite Hentry.
  split; [reflexivity|]. split; [reflexivity|]. split; [reflexivity|].
  split.
  - rewrite (streamWithMultiStepTools_eq env fuel s Hlast). fold userQuery.
    now rewrite Hentry.
  - intros rewriter.
    rewrite (streamWithMultiStepTools_eq env fuel s Hlast).
    rewrite (streamWithMultiStepTools_eq (withGenerateText rewriter env) fuel s Hlast).
    fold userQuery. rewrite !Hentry. reflexivity.
Qed.

(** C8.  When there are previous user messages and the rewriting call fails,
    the error is caught: [currentSearchQuery] stays the content of the current
    message, no [query-rewrite] frame is sent, nothing is thrown, and the
    function enters the loop as it would have without rewriting. *)
Theorem C8_failed_rewrite_falls_back :
  forall fuel s current message w,
    lastMessage (messages s) = Some current ->
    previousUserMessages (messages s) <> [] ->
    generateText env
      (RewritePrompt (previousUserMessages (messages s)) (content current)) (world s)
      = (Rejected message, w) ->
    let userQuery := content current in
    rewriteQuery env userQuery (freshLocals userQuery s)
      = (Ok tt, with_world w (freshLocals userQuery s)) /\
    currentSearchQuery (loopEntry env userQuery s) = userQuery /\
    sent (loopEntry env userQuery s) = sent s /\
    streamWithMultiStepTools env fuel s =
      loopAndAnswer env fuel userQuery (with_world w (freshLocals userQuery s)).
Proof.
  intros fuel s current message w Hlast Hprev Hgen userQuery.
  assert (Hrw : rewriteQuery env userQuery (freshLocals userQuery s)
                = (Ok tt, with_world w (freshLocals userQuery s))).
  { rewrite rewriteQuery_eq. unfold freshLocals at 1 2.
    cbn [messages world with_currentSearchQuery with_allFiles
           with_accumulatedKnowledge with_iteration].
    destruct (previousUserMessages (messages s)) as [|p ps]; [contradiction|].
    change (world (freshLocals userQuery s)) with (world s).
    fold userQuery in Hgen. now rewrite Hgen. }
  split; [exact Hrw|].
  assert (Hentry : loopEntry env userQuery s = with_world w (freshLocals userQuery s))
    by (unfold loopEntry; now rewrite Hrw).
  rewrite Hentry. split; [reflexivity|]. split; [reflexivity|].
  rewrite (streamWithMultiStepTools_eq env fuel s Hlast). fold userQuery.
  now rewrite Hentry.
Qed.

(** C9.  The final loop sends one frame per [text-delta] and per [error]
    part, in the order of the stream, and collects the texts: an [error] part
    in the middle is sent on as an [error] frame after the frames of the
    fragments before it, and those fragments stay in the collected text.
    When the collected text is not blank, it is pushed onto [this.messages]
    as one assistant message and nothing else changes the history; when it is
    blank, the history is left as it was. *)
Theorem C9_stream_errors_keep_text_and_history_gets_one_turn :
  forall userQuery s parts w,
    streamText env (AnswerPrompt userQuery (iteration s) (accumulatedKnowledge s))
      (world s) = (parts, w) ->
    let s' := snd (streamAnswer env userQuery s) in
    fst (streamAnswer env userQuery s) = Ok tt /\
    sent s' = (sent s ++ streamFrames parts)%list /\
    completeResponse s' = streamedText parts /\
    (Js.trim (streamedText parts) <> "" ->
     messages s' = (messages s ++ [mkMessage "assistant" (streamedText parts)])%list) /\
    (Js.trim (streamedText parts) = "" -> messages s' = messages s) /\
    (forall before error after,
        parts = (before ++ PartError error :: after)%list ->
        sent s' = (sent s ++ streamFrames before ++ FError error :: streamFrames after)%list /\
        streamedText parts = (streamedText before ++ streamedText after)%string).
Proof.
  intros userQuery s parts w Hstream s'.
  assert (Hs' : s' = if Js.truthy (Js.trim (streamedText parts))
                     then with_messages
                            (messages s ++ [mkMessage "assistant" (streamedText parts)])
                            (with_completeResponse (streamedText parts)
                               (with_sent (sent s ++ streamFrames parts) (with_world w s)))
                     else with_completeResponse (streamedText parts)
                            (with_sent (sent s ++ streamFrames parts) (with_world w s))).
  { subst s'. rewrite streamAnswer_eq, Hstream. cbv zeta.
    now destruct (Js.truthy (Js.trim (streamedText parts))). }
  split; [apply streamAnswer_ok|].
  assert (Hsent : sent s' = (sent s ++ streamFrames parts)%list).
  { rewrite Hs'. now destruct (Js.truthy _). }
  split; [exact Hsent|].
  split; [rewrite Hs'; now destruct (Js.truthy _)|].
  split; [|split].
  - intros Hne. rewrite Hs'.
    destruct (Js.trim (streamedText parts)); [contradiction | reflexivity].
  - intros Hblank. rewrite Hs', Hblank. reflexivity.
  - intros before error after ->. split.
    + rewrite Hsent. unfold streamFrames. rewrite flat_map_app. reflexivity.
    + clear. induction before as [|p before IH]; [reflexivity|].
      cbn [app streamedText fold_right] in *. fold (streamedText before).
      unfold streamedText in IH at 1. rewrite IH. now rewrite append_assoc.
Qed.

End TurnClaims.

(* ================================================================== *)
(** ** The statements at work on the concrete world *)

(** One search, three results, two of them without a name. *)
Example performSearch_formats_and_files :
  let run := performSearch Demo.env "policy X"
               (Demo.start "docs" [Demo.user "What is policy X?"]) in
  option_map (map fr_filename)
    (match fst run with Ok r => Some (tr_results r) | _ => None end)
    = Some ["policy-x.pdf"; "Unknown"; "Unknown"] /\
  option_map (map fr_rank)
    (match fst run with Ok r => Some (tr_results r) | _ => None end)
    = Some [1; 2; 3] /\
  allFiles (snd run) =
    [("policy-x.pdf", mkFileRef "policy-x.pdf" "f-1");
     ("Unknown", mkFileRef "Unknown" "f-3")] /\
  sent (snd run) = [FSearchStart "policy X"] /\
  totalSearches (state (snd run)) = 1%Z.
Proof. cbv zeta. repeat split; vm_compute; reflexivity. Qed.

(** A first question, answered after one pass. *)
Example turn_satisfied_after_one_pass :
  let s' := snd (onMessage (Demo.envSatisfiedAt 1) 5
                   (mkIncoming (Some "docs") (Some [Demo.user "What is policy X?"]))
                   (Demo.start "" [])) in
  iteration s' = 1 /\
  sent s' =
    [FSearchStart "What is policy X?";
     FTextDelta "X "; FError "overloaded"; FTextDelta "applies.";
     FFiles [mkFileRef "policy-x.pdf" "f-1"; mkFileRef "Unknown" "f-3"];
     FFinish] /\
  messages s' = [Demo.user "What is policy X?"; Demo.assistant "X applies."] /\
  storage s' = Some (messages s').
Proof. cbv zeta. repeat split; vm_compute; reflexivity. Qed.

Lemma C1_at_most_five_passes_witness :
  let s := Demo.start "docs" [Demo.user "What is policy X?"] in
  iteration (snd (streamWithMultiStepTools Demo.env 5 s)) <= maxIterations /\
  exists s5,
    streamWithMultiStepTools Demo.env 5 s
      = answerAndReturn Demo.env "What is policy X?" s5 /\
    iteration s5 = 5 /\ List.length (accumulatedKnowledge s5) = 5.
Proof.
  intros s.
  destruct (C1_at_most_five_passes Demo.env 5 s) as (Hbound & _ & Hfive).
  split; [exact Hbound|].
  destruct (Hfive (Demo.user "What is policy X?") eq_refl) as (s5 & _ & H5 & Hlen & Hrun).
  - intros p w. destruct p; cbn; repeat constructor.
  - intros i knowledge w. exists Demo.wantsMore, (S w). now repeat split.
  - apply le_n.
  - exists s5. now repeat split.
Defined.

(** Claim C1 as it is worded fails: the evaluator never is satisfied and
    always names a next query, yet the loop makes two passes, because the
    extractor comes back with a blank text in the second. *)
Lemma C1_blank_knowledge_stops_before_five :
  let run := streamWithMultiStepTools Demo.envDry 5
               (Demo.start "docs" [Demo.user "What is policy X?"]) in
  (forall p w, fst (generateObject Demo.envDry p w) = Resolved Demo.wantsMore) /\
  isKnowledgeEnough Demo.wantsMore = false /\
  nextSearchQuery Demo.wantsMore = Some "clause Y of policy X" /\
  fst run = Ok [] /\
  iteration (snd run) = 2 /\
  iteration (snd run) <> maxIterations.
Proof.
  cbv zeta. split; [reflexivity|]. split; [reflexivity|]. split; [reflexivity|].
  split; [vm_compute; reflexivity|].
  split; [vm_compute; reflexivity | vm_compute; discriminate].
Qed.

Lemma C2_stop_when_sufficient_witness :
  let s0 := loopEntry (Demo.envSatisfiedAt 1) "What is policy X?"
              (Demo.start "docs" [Demo.user "What is policy X?"]) in
  iteration (snd (agentic_loop (Demo.envSatisfiedAt 1) 5 "What is policy X?" s0)) = 1.
Proof.
  intros s0.
  set (e := Demo.envSatisfiedAt 1).
  set (p := knowledgePrompt "What is policy X?" (with_iteration (iteration s0 + 1) s0)).
  set (s1 := snd (generateKnowledge e p (with_iteration (iteration s0 + 1) s0))).
  destruct (@C2_stop_when_sufficient_else_follow_next_query _ e 0 5 "What is policy X?"
              s0 s0 "- X applies (policy-x.pdf)" s1 Demo.satisfied (S (world s1)))
    as (Hk & Hstop & _).
  - reflexivity.
  - constructor.
  - lia.
  - vm_compute. reflexivity.
  - reflexivity.
  - vm_compute. reflexivity.
  - rewrite (Hstop eq_refl). exact Hk.
Defined.



(** C4 (a defect of the code).  No collection is selected and the model calls
    the search tool in every pass.  Every search throws the error written for
    the user, but it is thrown inside the tool's [execute]: the generation
    call hands it to the model, which answers all the same.  The turn is not
    aborted: it goes through its five passes, the client gets an answer and
    [finish], and the error is never surfaced in an [error] frame. *)
Lemma C4_error_fed_back_turn_completes :
  let s := Demo.start "" [Demo.user "What is policy X?"] in
  let data := mkIncoming None (Some [Demo.user "and clause Y?"]) in
  let s' := snd (onMessage Demo.envCalm 5 data s) in
  selectedRag (state s') = "" /\
  (forall query, performSearch Demo.envCalm query s' = (Throw noRagMessage, s')) /\
  (forall userQuery query first knowledge w, exists k,
      generateTextWithTools Demo.envCalm
        (KnowledgePrompt userQuery query first knowledge) w = (CallTool query k, S w)) /\
  fst (onMessage Demo.envCalm 5 data s) = Ok tt /\
  sent s' =
    [FQueryRewrite "and clause Y?" "policy X, clause Y";
     FTextDelta "I could not search: no collection.";
     FFinish] /\
  iteration s' = 5 /\
  messages s' =
    [Demo.user "What is policy X?"; Demo.user "and clause Y?";
     Demo.assistant "I could not search: no collection."].
Proof.
  cbv zeta.
  split; [vm_compute; reflexivity|].
  split; [intros query; apply performSearch_no_rag; vm_compute; reflexivity|].
  split.
  { intros userQuery query first knowledge w.
    exists (fun _ => Finish (Resolved "- X applies (policy-x.pdf)")). reflexivity. }
  split; [vm_compute; reflexivity|].
  split; [vm_compute; reflexivity|].
  split; vm_compute; reflexivity.
Qed.

Lemma C5_search_failure_witness :
  let s := Demo.start "docs" [Demo.user "What is policy X?"] in
  fst (performSearch Demo.envSearchDown "policy X" s)
    = Ok (searchFailed "index unavailable") /\
  allFiles (snd (performSearch Demo.envSearchDown "policy X" s)) = [].
Proof.
  intros s.
  destruct (@C5_search_failure_is_contained _ Demo.envSearchDown "policy X"
              (fun _ => Finish (Resolved "- nothing")) 5 "What is policy X?" s
              "index unavailable" 2 eq_refl eq_refl)
    as (Hrun & _ & _ & Hfiles & _).
  rewrite Hrun. cbn [fst snd]. split; [reflexivity | exact Hfiles].
Defined.

Lemma C6_blank_knowledge_witness :
  let s := Demo.start "docs" [Demo.user "What is policy X?"] in
  let s1 := with_world 1 (with_iteration 1 s) in
  agentic_loop (withGenerateTextWithTools (fun _ => Demo.tick (Finish (Resolved "  ")))
                  Demo.env) 5 "What is policy X?" s = (Ok tt, s1) /\
  accumulatedKnowledge s1 = [].
Proof.
  intros s s1.
  destruct (@C6_blank_knowledge_skips_evaluation _
              (withGenerateTextWithTools (fun _ => Demo.tick (Finish (Resolved "  ")))
                 Demo.env)
              4 "What is policy X?" s "  " s1 eq_refl eq_refl)
    as (_ & Hloop & Hk & _).
  split; [exact Hloop | exact Hk].
Defined.

Lemma C7_no_previous_user_message_witness :
  let s := Demo.start "docs" [Demo.assistant "Hello."; Demo.user "What is policy X?"] in
  currentSearchQuery (loopEntry Demo.env "What is policy X?" s) = "What is policy X?" /\
  sent (loopEntry Demo.env "What is policy X?" s) = [].
Proof.
  intros s.
  destruct (C7_no_previous_user_message_no_rewrite Demo.env 5 s
              [Demo.assistant "Hello."] (Demo.user "What is policy X?") eq_refl)
    as (_ & Hq & _ & Hsent & _).
  - intros m [<-|[]]. discriminate.
  - split; [exact Hq | exact Hsent].
Defined.

Lemma C8_failed_rewrite_witness :
  let s := Demo.start "docs" [Demo.user "What is policy X?"; Demo.user "and clause Y?"] in
  currentSearchQuery (loopEntry Demo.envRewriteDown "and clause Y?" s) = "and clause Y?" /\
  sent (loopEntry Demo.envRewriteDown "and clause Y?" s) = [].
Proof.
  intros s.
  destruct (@C8_failed_rewrite_falls_back _ Demo.envRewriteDown 5 s
              (Demo.user "and clause Y?") "model overloaded" 1 eq_refl)
    as (_ & Hq & Hsent & _).
  - discriminate.
  - reflexivity.
  - split; [exact Hq | exact Hsent].
Defined.

Lemma C9_stream_error_witness :
  let s := Demo.start "docs" [Demo.user "What is policy X?"] in
  let s' := snd (streamAnswer Demo.env "What is policy X?" s) in
  sent s' = [FTextDelta "X "; FError "overloaded"; FTextDelta "applies."] /\
  messages s' = [Demo.user "What is policy X?"; Demo.assistant "X applies."].
Proof.
  intros s s'.
  destruct (@C9_stream_errors_keep_text_and_history_gets_one_turn _ Demo.env
              "What is policy X?" s
              [PartTextDelta "X "; PartError "overloaded"; PartTextDelta "applies."]
              1 eq_refl)
    as (_ & Hsent & _ & Hpush & _).
  split; [exact Hsent|]. apply Hpush. discriminate.
Defined.


(* ================================================================== *)
(** ** More about the search function *)

Lemma substring_length (n m : nat) (s : string) :
  String.length (substring n m s) <= m.
Proof.
  revert n m. induction s as [|c s IH]; intros n m.
  - destruct n, m; cbn; lia.
  - destruct n as [|n]; cbn [substring].
    + destruct m as [|m]; cbn [String.length]; [lia|].
      specialize (IH 0 m). lia.
    + apply IH.
Qed.

Lemma map_mapi A B C (g : B -> C) (h : A -> C) (f : nat -> A -> B) (i : nat) (l : list A) :
  (forall j a, g (f j a) = h a) -> map g (mapi f i l) = map h l.
Proof.
  intros H. revert i. induction l as [|a l IH]; intros i; [reflexivity|].
  cbn [mapi map]. now rewrite H, IH.
Qed.

Lemma mapi_ranks (i : nat) (results : list RawResult) :
  map fr_rank (mapi formatResult i results) = seq (i + 1) (List.length results).
Proof.
  revert i. induction results as [|r rs IH]; intros i; [reflexivity|].
  cbn [mapi map List.length seq formatResult fr_rank]. rewrite IH.
  now replace (S i + 1) with (S (i + 1)) by lia.
Qed.

Section SearchExtras.

Variable World : Type.
Variable env : Env World.
Implicit Types (s : Sys World) (query : string).

Lemma searchStarted_state_sent query s :
  state (searchStarted env query s) =
    {| totalSearches := totalSearches (state s) + 1;
       lastSearchTime := fst (Date_now env (world s));
       selectedRag := selectedRag (state s) |} /\
  sent (searchStarted env query s) = (sent s ++ [FSearchStart query])%list.
Proof.
  unfold searchStarted. now destruct (Date_now env (world s)).
Qed.

(** The state [performSearch] leaves differs from [searchStarted] in the
    world and the files only. *)
Lemma performSearch_started query s :
  Js.truthy (selectedRag (state s)) = true ->
  (exists payload, fst (performSearch env query s) = Ok payload) /\
  state (snd (performSearch env query s)) = state (searchStarted env query s) /\
  sent (snd (performSearch env query s)) = sent (searchStarted env query s).
Proof.
  intros Hrag. rewrite performSearch_eq by assumption. cbv zeta.
  destruct (autorag_search env _ query _) as [[sr|msg] w]; cbn [fst snd].
  - destruct (data sr) as [[|r rs]|]; cbn [fst snd]; split; eauto.
  - split; eauto.
Qed.

(** X1.  A search that comes back without [data], or with an empty array,
    returns the object [{success: true, found: false, count: 0, results: []}]
    and files nothing; it has been announced and counted all the same. *)
Theorem X1_search_without_results :
  forall query s searchResults w,
    Js.truthy (selectedRag (state s)) = true ->
    autorag_search env (selectedRag (state s)) query
      (world (searchStarted env query s)) = (Resolved searchResults, w) ->
    data searchResults = None \/ data searchResults = Some [] ->
    let s' := snd (performSearch env query s) in
    fst (performSearch env query s) = Ok noDocuments /\
    tr_found noDocuments = Some false /\
    tr_count noDocuments = Some 0 /\
    tr_results noDocuments = [] /\
    allFiles s' = allFiles s /\
    sent s' = (sent s ++ [FSearchStart query])%list /\
    totalSearches (state s') = (totalSearches (state s) + 1)%Z.
Proof.
  intros query s searchResults w Hrag Hsearch Hdata s'.
  assert (Hrun : performSearch env query s =
                 (Ok noDocuments, with_world w (searchStarted env query s))).
  { rewrite performSearch_eq by assumption. cbv zeta. rewrite Hsearch.
    now destruct Hdata as [-> | ->]. }
  subst s'. rewrite Hrun. cbn [fst snd allFiles sent state with_world].
  destruct (searchStarted_state_sent query s) as (Hst & Hsent).
  rewrite searchStarted_files, Hst, Hsent. now repeat split.
Qed.

(** X2.  With a collection selected, [performSearch] never throws: it returns
    an object whatever the search service does.  It sends exactly one frame,
    [search-start] with the query, adds one to [totalSearches], stamps
    [lastSearchTime] with the clock and leaves [selectedRag] alone. *)
Theorem X2_started_search_is_announced_and_counted :
  forall query s,
    Js.truthy (selectedRag (state s)) = true ->
    let s' := snd (performSearch env query s) in
    (exists payload, fst (performSearch env query s) = Ok payload) /\
    sent s' = (sent s ++ [FSearchStart query])%list /\
    totalSearches (state s') = (totalSearches (state s) + 1)%Z /\
    lastSearchTime (state s') = fst (Date_now env (world s)) /\
    selectedRag (state s') = selectedRag (state s).
Proof.
  intros query s Hrag s'. subst s'.
  destruct (performSearch_started query s Hrag) as (Hok & Hst & Hsent).
  destruct (searchStarted_state_sent query s) as (Hst' & Hsent').
  rewrite Hst, Hsent, Hst', Hsent'. now repeat split.
Qed.

(** X3.  When the search returns results, the object handed to the model
    lists them in the order received: ranks 1, 2, ..., n, [count] n, the
    [file_id]s untouched and every name as it is filed; no [content] is
    longer than 400 code units, and [search_query] falls back to the query
    asked when the service names none. *)
Theorem X3_results_ranked_counted_truncated :
  forall query s searchResults w results,
    Js.truthy (selectedRag (state s)) = true ->
    autorag_search env (selectedRag (state s)) query
      (world (searchStarted env query s)) = (Resolved searchResults, w) ->
    data searchResults = Some results ->
    results <> [] ->
    exists payload,
      fst (performSearch env query s) = Ok payload /\
      tr_success payload = true /\
      tr_found payload = Some true /\
      tr_count payload = Some (List.length results) /\
      map fr_rank (tr_results payload) = seq 1 (List.length results) /\
      map fr_file_id (tr_results payload) = map raw_file_id results /\
      map fr_filename (tr_results payload) = map registeredName results /\
      Forall (fun r => match fr_content r with
                       | Some c => String.length c <= 400
                       | None => True
                       end) (tr_results payload) /\
      tr_search_query payload = Some (Js.or_else (search_query searchResults) query).
Proof.
  intros query s searchResults w results Hrag Hsearch Hdata Hne.
  rewrite (performSearch_found env query s Hrag Hsearch Hdata Hne).
  eexists; split; [reflexivity|].
  cbn [documentsFound tr_success tr_found tr_count tr_results tr_search_query].
  split; [reflexivity|]. split; [reflexivity|]. split.
  { f_equal. clear. generalize 0. induction results as [|r rs IH]; intros i;
      [reflexivity | cbn [mapi List.length]; now rewrite IH]. }
  split; [apply (mapi_ranks 0)|].
  split; [now apply map_mapi|]. split; [now apply map_mapi|].
  split; [|reflexivity].
  apply Forall_forall. intros r Hr. apply mapi_in in Hr as (j & a & _ & ->).
  cbn [formatResult fr_content]. destruct (raw_content a); cbn [option_map]; [|exact I].
  apply substring_length.
Qed.

End SearchExtras.

(* ================================================================== *)
(** ** What a whole turn keeps true *)

Lemma searchStarts_app (l l' : list Frame) :
  searchStarts (l ++ l') = searchStarts l + searchStarts l'.
Proof. unfold searchStarts. now rewrite filter_app, length_app. Qed.

Section TurnFacts.

Variable World : Type.
Variable env : Env World.
Implicit Types (s : Sys World) (userQuery query : string).

Lemma afterKnowledge_frame userQuery newKnowledge s :
  let s' := snd (afterKnowledge env userQuery newKnowledge s) in
  state s' = state s /\ sent s' = sent s /\ storage s' = storage s /\
  messages s' = messages s /\ allFiles s' = allFiles s.
Proof.
  unfold afterKnowledge. munfold.
  destruct (Js.truthy (Js.trim newKnowledge)); [|now repeat split].
  cbn [world with_accumulatedKnowledge iteration accumulatedKnowledge].
  destruct (generateObject env _ (world s)) as [[d|msg] w]; [|now repeat split].
  destruct (isKnowledgeEnough d || _)%bool; [now repeat split|].
  destruct (nextSearchQuery d) as [q|]; [|now repeat split].
  destruct (Js.truthy q); now repeat split.
Qed.

Lemma rewriteQuery_frame userQuery s :
  let s' := snd (rewriteQuery env userQuery s) in
  state s' = state s /\ storage s' = storage s /\ messages s' = messages s.
Proof.
  rewrite rewriteQuery_eq.
  destruct (previousUserMessages (messages s)); [now repeat split|].
  now destruct (generateText env _ (world s)) as [[text|msg] w].
Qed.

(** *** Properties of [this.state] and of the frames sent *)

Section FramesInvariant.

Variable R : AgentState -> list Frame -> Prop.
Hypothesis R_rewrite : forall st l a b, R st l -> R st (l ++ [FQueryRewrite a b]).
Hypothesis R_delta : forall st l t, R st l -> R st (l ++ [FTextDelta t]).
Hypothesis R_error : forall st l e, R st l -> R st (l ++ [FError e]).
Hypothesis R_search :
  forall st l q t,
    R st l ->
    R {| totalSearches := totalSearches st + 1;
         lastSearchTime := t;
         selectedRag := selectedRag st |} (l ++ [FSearchStart q]).

Lemma performSearch_R query :
  preserves (fun s => R (state s) (sent s)) (performSearch env query).
Proof.
  intros s H. destruct (Js.truthy (selectedRag (state s))) eqn:Hrag.
  - destruct (performSearch_started env query s Hrag) as (_ & Hst & Hsent).
    destruct (searchStarted_state_sent env query s) as (Hst' & Hsent').
    rewrite Hst, Hsent, Hst', Hsent'. now apply R_search.
  - now rewrite performSearch_no_rag.
Qed.

Lemma run_session_R session :
  preserves (fun s => R (state s) (sent s)) (run_session env session).
Proof.
  induction session as [[text|msg]|query k IH]; intros s H; cbn [run_session];
    try exact H.
  unfold searchTool_execute. pose proof (@performSearch_R query s H) as Hp.
  destruct (performSearch env query s) as [[result|msg|] s1]; cbn [snd] in *;
    [now apply IH | now apply IH | exact Hp].
Qed.

Lemma generateKnowledge_R prompt :
  preserves (fun s => R (state s) (sent s)) (generateKnowledge env prompt).
Proof.
  intros s H. unfold generateKnowledge.
  destruct (generateTextWithTools env prompt (world s)) as [session w].
  now apply run_session_R.
Qed.

Lemma iteration_body_R userQuery :
  preserves (fun s => R (state s) (sent s)) (iteration_body env userQuery).
Proof.
  intros s H. rewrite iteration_body_eq. cbv zeta.
  apply preserves_bind; [apply generateKnowledge_R | | exact H].
  intros text s1 H1.
  destruct (afterKnowledge_frame userQuery text s1) as (Hst & Hsent & _).
  now rewrite Hst, Hsent.
Qed.

Lemma agentic_loop_R fuel userQuery :
  preserves (fun s => R (state s) (sent s)) (agentic_loop env fuel userQuery).
Proof.
  induction fuel as [|fuel IH]; [intros s H; exact H|].
  cbn [agentic_loop]. apply preserves_bind; [apply iteration_body_R|].
  intros [|]; [apply IH | intros s H; exact H].
Qed.

Lemma rewriteQuery_R userQuery :
  preserves (fun s => R (state s) (sent s)) (rewriteQuery env userQuery).
Proof.
  intros s H. rewrite rewriteQuery_eq.
  destruct (previousUserMessages (messages s)); [exact H|].
  destruct (generateText env _ (world s)) as [[text|msg] w]; cbn [snd]; [|exact H].
  now apply R_rewrite.
Qed.

Lemma streamFrames_R st l parts : R st l -> R st (l ++ streamFrames parts).
Proof.
  revert l. induction parts as [|part parts IH]; intros l H.
  - now rewrite app_nil_r.
  - unfold streamFrames. cbn [flat_map]. rewrite app_assoc. apply IH.
    destruct part; cbn [partFrames]; [now apply R_delta | now apply R_error |].
    now rewrite app_nil_r.
Qed.

Lemma streamAnswer_R userQuery :
  preserves (fun s => R (state s) (sent s)) (streamAnswer env userQuery).
Proof.
  intros s H. rewrite streamAnswer_eq.
  destruct (streamText env _ (world s)) as [parts w]. cbv zeta.
  destruct (Js.truthy _); cbn [snd state sent with_messages with_completeResponse
                                 with_sent with_world];
    now apply streamFrames_R.
Qed.

Lemma answerAndReturn_R userQuery :
  preserves (fun s => R (state s) (sent s)) (answerAndReturn env userQuery).
Proof.
  unfold answerAndReturn. apply preserves_bind; [apply streamAnswer_R|].
  intros _. apply preserves_bind; [intros s H; exact H | intros files s H; exact H].
Qed.

Lemma loopAndAnswer_R fuel userQuery :
  preserves (fun s => R (state s) (sent s)) (loopAndAnswer env fuel userQuery).
Proof.
  unfold loopAndAnswer. apply preserves_bind; [apply agentic_loop_R|].
  intros _. apply answerAndReturn_R.
Qed.

Lemma streamWithMultiStepTools_R fuel :
  preserves (fun s => R (state s) (sent s)) (streamWithMultiStepTools env fuel).
Proof.
  intros s H. destruct (lastMessage (messages s)) as [current|] eqn:Hlast.
  - rewrite (streamWithMultiStepTools_eq env fuel s Hlast).
    apply loopAndAnswer_R. unfold loopEntry. now apply rewriteQuery_R.
  - now rewrite (streamWithMultiStepTools_no_message env fuel s Hlast).
Qed.

End FramesInvariant.

End TurnFacts.

Section TurnExtras.

Variable World : Type.
Variable env : Env World.
Implicit Types (s : Sys World) (userQuery query : string).

Lemma streamWithMultiStepTools_terminates fuel s :
  maxIterations <= fuel ->
  fst (streamWithMultiStepTools env fuel s) <> OutOfFuel.
Proof.
  intros Hfuel. destruct (lastMessage (messages s)) as [current|] eqn:Hlast.
  - rewrite (streamWithMultiStepTools_eq env fuel s Hlast).
    destruct (loopEntry_locals env (content current) s) as (Hi0 & _).
    unfold loopAndAnswer, bind.
    pose proof (@agentic_loop_terminates _ env fuel (content current)
                  (loopEntry env (content current) s)) as Ht.
    rewrite Hi0 in Ht. unfold maxIterations in *.
    specialize (Ht ltac:(lia) ltac:(lia)).
    destruct (agentic_loop env fuel _ _) as [[[]|msg|] s1]; cbn [fst] in *;
      try discriminate; try congruence.
    apply answerAndReturn_keeps.
  - rewrite (streamWithMultiStepTools_no_message env fuel s Hlast). discriminate.
Qed.

(** The state in which [processAndStreamResponse] is called. *)
Lemma received_eq data msgs s :
  received data msgs s =
    with_storage (Some (reloaded s ++ msgs)%list)
      (with_messages (reloaded s ++ msgs)
         (with_state
            {| totalSearches := totalSearches (state s);
               lastSearchTime := lastSearchTime (state s);
               selectedRag := Js.or_else (in_selectedRag data) (selectedRag (state s)) |}
            s)).
Proof.
  unfold received, updateSelectedRag, addMessages, persistMessages, reloaded.
  munfold. destruct s as [w [n t rag] ms st fs af ak it cq cr].
  destruct (in_selectedRag data) as [[|c r]|]; destruct st; reflexivity.
Qed.

Lemma received_fields data msgs s :
  totalSearches (state (received data msgs s)) = totalSearches (state s) /\
  selectedRag (state (received data msgs s)) =
    Js.or_else (in_selectedRag data) (selectedRag (state s)) /\
  sent (received data msgs s) = sent s /\
  messages (received data msgs s) = (reloaded s ++ msgs)%list /\
  storage (received data msgs s) = Some (reloaded s ++ msgs)%list /\
  world (received data msgs s) = world s.
Proof. rewrite received_eq. now repeat split. Qed.

Lemma onMessage_eq fuel data msgs s :
  in_messages data = Some msgs ->
  onMessage env fuel data s =
    try_catch (processAndStreamResponse env fuel) (fun message => send (FError message))
      (received data msgs s).
Proof.
  intros Hm. rewrite received_eq. unfold onMessage. rewrite Hm.
  unfold updateSelectedRag, addMessages, persistMessages, reloaded. munfold.
  destruct s as [w [n t rag] ms st fs af ak it cq cr].
  destruct (in_selectedRag data) as [[|c r]|]; destruct st; reflexivity.
Qed.

(** [onMessage] on a message that carries messages, by the way the run
    ends. *)
Lemma onMessage_cases fuel data msgs s :
  in_messages data = Some msgs ->
  onMessage env fuel data s =
    match streamWithMultiStepTools env fuel (received data msgs s) with
    | (Ok files, s1) =>
        (Ok tt,
         with_sent (sent s1 ++ (if (0 <? List.length files)%nat then [FFiles files] else [])
                            ++ [FFinish])
           (with_storage (Some (messages s1)) s1))
    | (Throw message, s1) => (Ok tt, with_sent (sent s1 ++ [FError message]) s1)
    | (OutOfFuel, s1) => (OutOfFuel, s1)
    end.
Proof.
  intros Hm. rewrite (onMessage_eq fuel data s Hm). unfold try_catch.
  destruct (streamWithMultiStepTools env fuel (received data msgs s))
    as [[files|message|] s1] eqn:Hrun.
  - now rewrite (processAndStreamResponse_sends env fuel _ Hrun).
  - unfold processAndStreamResponse, bind. now rewrite Hrun.
  - unfold processAndStreamResponse, bind. now rewrite Hrun.
Qed.

(** *** The history *)

Lemma iteration_body_history userQuery s :
  messages (snd (iteration_body env userQuery s)) = messages s /\
  storage (snd (iteration_body env userQuery s)) = storage s.
Proof.
  rewrite iteration_body_eq. cbv zeta. unfold bind.
  match goal with |- context [generateKnowledge env ?p ?s0] =>
    pose proof (generateKnowledge_locals env p s0) as (_ & _ & _ & Hm & Hs & _);
    destruct (generateKnowledge env p s0) as [[text|msg|] s1] end;
    cbn [snd messages storage with_iteration] in *; try (now split).
  destruct (afterKnowledge_frame env userQuery text s1) as (_ & _ & Hs' & Hm' & _).
  split; congruence.
Qed.

Lemma agentic_loop_history fuel userQuery s :
  messages (snd (agentic_loop env fuel userQuery s)) = messages s /\
  storage (snd (agentic_loop env fuel userQuery s)) = storage s.
Proof.
  revert s. induction fuel as [|fuel IH]; intros s; [now split|].
  cbn [agentic_loop]. unfold bind.
  pose proof (iteration_body_history userQuery s) as (Hm & Hs).
  destruct (iteration_body env userQuery s) as [[[|]|msg|] s1]; cbn [snd] in *;
    try (now split).
  destruct (IH s1) as (Hm' & Hs'). split; congruence.
Qed.

Lemma streamWithMultiStepTools_history fuel s :
  let run := streamWithMultiStepTools env fuel s in
  storage (snd run) = storage s /\
  (messages (snd run) = messages s \/
   exists files answer,
     fst run = Ok files /\ notBlank answer /\
     messages (snd run) = (messages s ++ [mkMessage "assistant" answer])%list).
Proof.
  cbv zeta. destruct (lastMessage (messages s)) as [current|] eqn:Hlast.
  - rewrite (streamWithMultiStepTools_eq env fuel s Hlast).
    set (userQuery := content current).
    assert (He : messages (loopEntry env userQuery s) = messages s /\
                 storage (loopEntry env userQuery s) = storage s).
    { unfold loopEntry.
      destruct (rewriteQuery_frame env userQuery (freshLocals userQuery s))
        as (_ & Hs & Hm). now rewrite Hs, Hm. }
    destruct He as (Hm0 & Hs0).
    unfold loopAndAnswer, bind.
    pose proof (agentic_loop_history fuel userQuery (loopEntry env userQuery s))
      as (Hm1 & Hs1).
    destruct (agentic_loop env fuel userQuery _) as [[[]|msg|] s1]; cbn [snd] in *;
      try (split; [congruence | left; congruence]).
    unfold answerAndReturn, bind, gets, ret. rewrite !streamAnswer_eq.
    destruct (streamText env _ (world s1)) as [parts w]. cbv zeta.
    destruct (Js.truthy (Js.trim (streamedText parts))) eqn:Ht;
      cbn [fst snd messages storage with_messages with_completeResponse with_sent
             with_world].
    + split; [congruence|]. right. eexists _, (streamedText parts).
      split; [reflexivity|]. split; [exact Ht | congruence].
    + split; [congruence | left; congruence].
  - rewrite (streamWithMultiStepTools_no_message env fuel s Hlast). cbn [snd].
    split; [reflexivity | now left].
Qed.

(** *** The knowledge list *)

Lemma iteration_body_knowledge userQuery s :
  exists pushed,
    accumulatedKnowledge (snd (iteration_body env userQuery s)) =
      (accumulatedKnowledge s ++ pushed)%list /\
    Forall notBlank pushed /\
    List.length pushed <= 1 /\
    (fst (iteration_body env userQuery s) = Ok Continue -> List.length pushed = 1).
Proof.
  rewrite iteration_body_eq. cbv zeta. unfold bind.
  match goal with |- context [generateKnowledge env ?p ?s0] =>
    pose proof (generateKnowledge_locals env p s0) as (_ & _ & Hk & _);
    destruct (generateKnowledge env p s0) as [[text|msg|] s1] end;
    cbn [snd accumulatedKnowledge with_iteration] in Hk;
    try (exists []; cbn [fst snd]; rewrite app_nil_r;
         repeat split; [exact Hk | constructor | cbn; lia | discriminate]).
  destruct (Js.truthy (Js.trim text)) eqn:Ht.
  - assert (Hone : forall c s2,
               accumulatedKnowledge s2 = (accumulatedKnowledge s1 ++ [text])%list ->
               exists pushed,
                 accumulatedKnowledge (snd (c, s2)) = (accumulatedKnowledge s ++ pushed)%list /\
                 Forall notBlank pushed /\ List.length pushed <= 1 /\
                 (fst (c, s2) = Ok Continue -> List.length pushed = 1)).
    { intros c s2 H2. exists [text]. cbn [fst snd]. rewrite H2, Hk.
      repeat split; [repeat constructor; exact Ht | cbn; lia]. }
    destruct (generateObject env
                (EvaluationPrompt userQuery (iteration s1)
                   (accumulatedKnowledge s1 ++ [text])) (world s1))
      as [[d|msg] w] eqn:Hd.
    + rewrite (afterKnowledge_decided env userQuery text s1 Ht Hd). cbv zeta.
      destruct (isKnowledgeEnough d || _)%bool; [now apply Hone|].
      destruct (nextSearchQuery d) as [q|]; [|now apply Hone].
      destruct (Js.truthy q); now apply Hone.
    + rewrite (afterKnowledge_rejected env userQuery text s1 Ht Hd). now apply Hone.
  - rewrite (afterKnowledge_blank env userQuery text s1 Ht).
    exists []. cbn [fst snd]. rewrite app_nil_r.
    repeat split; [exact Hk | constructor | cbn; lia | discriminate].
Qed.

Lemma agentic_loop_knowledge fuel userQuery s :
  let s' := snd (agentic_loop env fuel userQuery s) in
  exists pushed,
    accumulatedKnowledge s' = (accumulatedKnowledge s ++ pushed)%list /\
    Forall notBlank pushed /\
    iteration s <= iteration s' /\
    List.length pushed <= iteration s' - iteration s /\
    iteration s' - iteration s <= List.length pushed + 1.
Proof.
  cbv zeta. revert s. induction fuel as [|fuel IH]; intros s.
  - exists []. cbn [agentic_loop snd]. rewrite app_nil_r.
    repeat split; [constructor | lia | cbn; lia | cbn; lia].
  - cbn [agentic_loop]. unfold bind.
    destruct (iteration_body_knowledge userQuery s) as (p1 & Hk1 & Hb1 & Hl1 & Hc1).
    pose proof (iteration_body_counts env userQuery s) as (Hi1 & _).
    destruct (iteration_body env userQuery s) as [[[|]|msg|] s1]; cbn [fst snd] in *;
      try (exists p1; unfold ret; cbn [snd]; repeat split; try assumption; lia).
    specialize (Hc1 eq_refl).
    destruct (IH s1) as (p2 & Hk2 & Hb2 & Hm2 & Hl2 & Hu2).
    exists (p1 ++ p2)%list. rewrite Hk2, Hk1, app_assoc, length_app.
    repeat split; [now apply Forall_app | lia | lia | lia].
Qed.

(** *** A turn without a collection *)

Lemma run_session_no_rag session s :
  Js.truthy (selectedRag (state s)) = false ->
  snd (run_session env session s) = s.
Proof.
  intros Hrag. induction session as [[text|msg]|query k IH]; cbn [run_session];
    try reflexivity.
  unfold searchTool_execute. rewrite performSearch_no_rag by assumption. apply IH.
Qed.

Lemma agentic_loop_no_rag fuel userQuery s :
  Js.truthy (selectedRag (state s)) = false ->
  let s' := snd (agentic_loop env fuel userQuery s) in
  state s' = state s /\ sent s' = sent s /\ allFiles s' = allFiles s.
Proof.
  cbv zeta. revert s. induction fuel as [|fuel IH]; intros s Hrag; [now repeat split|].
  cbn [agentic_loop]. unfold bind.
  assert (Hbody : let s1 := snd (iteration_body env userQuery s) in
                  state s1 = state s /\ sent s1 = sent s /\ allFiles s1 = allFiles s).
  { rewrite iteration_body_eq. cbv zeta. unfold bind, generateKnowledge.
    destruct (generateTextWithTools env _ _) as [session w].
    match goal with |- context [run_session env session ?s0] =>
      pose proof (run_session_no_rag session s0 Hrag) as Hs;
      destruct (run_session env session s0) as [[text|msg|] s1] end;
      cbn [snd] in Hs; subst s1; cbn [snd]; try (now repeat split).
    match goal with |- context [afterKnowledge env userQuery text ?s0] =>
      destruct (afterKnowledge_frame env userQuery text s0) as (H1 & H2 & _ & _ & H3) end.
    rewrite H1, H2, H3. now repeat split. }
  cbv zeta in Hbody. destruct Hbody as (H1 & H2 & H3).
  destruct (iteration_body env userQuery s) as [[[|]|msg|] s1]; cbn [snd] in *;
    try (now repeat split).
  destruct (IH s1) as (H1' & H2' & H3'); [now rewrite H1|].
  repeat split; congruence.
Qed.

(** *** The statements *)

(** X4.  A file once registered keeps its place in [allFiles] for the rest of
    the turn: a search, a whole loop and what is left of a turn only ever add
    names after the ones already there. *)
Theorem X4_registered_files_keep_their_place :
  forall s,
    (forall query, exists added,
        Js.keys (allFiles (snd (performSearch env query s))) =
        (Js.keys (allFiles s) ++ added)%list) /\
    (forall fuel userQuery, exists added,
        Js.keys (allFiles (snd (agentic_loop env fuel userQuery s))) =
        (Js.keys (allFiles s) ++ added)%list) /\
    (forall session fuel userQuery, exists added,
        Js.keys (allFiles (snd (continueTurn env session fuel userQuery s))) =
        (Js.keys (allFiles s) ++ added)%list).
Proof.
  intros s.
  set (P := fun m : Js.Map FileRef =>
              exists added, Js.keys m = (Js.keys (allFiles s) ++ added)%list).
  assert (HP : forall m r, P m -> P (collectFile m r)).
  { intros m r [added Hm]. unfold collectFile.
    destruct (Js.truthy (fr_filename r)); [|now exists added].
    destruct (in_dec string_dec (fr_filename r) (Js.keys m)) as [Hin|Hout].
    - exists added. now rewrite keys_set_present.
    - exists (added ++ [fr_filename r])%list.
      rewrite keys_set_absent by assumption. now rewrite Hm, app_assoc. }
  assert (H0 : P (allFiles s)) by (exists []; now rewrite app_nil_r).
  split; [|split].
  - intros query. exact (performSearch_inv env P HP query s H0).
  - intros fuel userQuery. exact (agentic_loop_inv env P HP fuel userQuery s H0).
  - intros session fuel userQuery.
    exact (continueTurn_inv env P HP session fuel userQuery s H0).
Qed.

(** X5.  With no collection selected, a whole run of
    [streamWithMultiStepTools] searches nothing: [this.state] is left as it
    was (no search is counted), no [search-start] frame is sent, [allFiles]
    stays empty, and a run that returns returns no file. *)
Theorem X5_without_collection_nothing_is_searched :
  forall fuel s,
    Js.truthy (selectedRag (state s)) = false ->
    let run := streamWithMultiStepTools env fuel s in
    state (snd run) = state s /\
    searchStarts (sent (snd run)) = searchStarts (sent s) /\
    allFiles (snd run) = [] /\
    (forall files, fst run = Ok files -> files = []).
Proof.
  intros fuel s Hrag. cbv zeta.
  assert (Hst : state (snd (streamWithMultiStepTools env fuel s)) = state s /\
                allFiles (snd (streamWithMultiStepTools env fuel s)) = []).
  { destruct (lastMessage (messages s)) as [current|] eqn:Hlast.
    - rewrite (streamWithMultiStepTools_eq env fuel s Hlast).
      set (userQuery := content current).
      destruct (loopEntry_locals env userQuery s) as (_ & _ & Hf0 & _).
      assert (Hs0 : state (loopEntry env userQuery s) = state s).
      { unfold loopEntry.
        now destruct (rewriteQuery_frame env userQuery (freshLocals userQuery s))
          as (-> & _). }
      unfold loopAndAnswer, bind.
      destruct (@agentic_loop_no_rag fuel userQuery (loopEntry env userQuery s))
        as (H1 & _ & H3); [now rewrite Hs0|].
      destruct (agentic_loop env fuel userQuery _) as [[[]|msg|] s1]; cbn [snd] in *;
        try (split; congruence).
      unfold answerAndReturn, bind, gets, ret. rewrite streamAnswer_eq.
      destruct (streamText env _ (world s1)) as [parts w]. cbv zeta.
      destruct (Js.truthy (Js.trim (streamedText parts)));
        cbn [snd state allFiles with_messages with_completeResponse with_sent
               with_world]; split; congruence.
    - rewrite (streamWithMultiStepTools_no_message env fuel s Hlast). now split. }
  destruct Hst as (Hstate & Hfiles).
  split; [exact Hstate|]. split; [|split; [exact Hfiles|]].
  - pose proof (@streamWithMultiStepTools_R _ env
                  (fun st l => (totalSearches st - Z.of_nat (searchStarts l))%Z =
                               (totalSearches (state s)
                                - Z.of_nat (searchStarts (sent s)))%Z)) as Hacc.
    cbv beta in Hacc. unfold preserves in Hacc.
    specialize (Hacc
      ltac:(intros; rewrite searchStarts_app; cbn; rewrite Nat.add_0_r; assumption)
      ltac:(intros; rewrite searchStarts_app; cbn; rewrite Nat.add_0_r; assumption)
      ltac:(intros; rewrite searchStarts_app; cbn; rewrite Nat.add_0_r; assumption)
      ltac:(intros st l q t H; rewrite searchStarts_app; cbn; lia)
      fuel s eq_refl).
    rewrite Hstate in Hacc. lia.
  - intros files Hok.
    destruct (streamWithMultiStepTools env fuel s) as [r s'] eqn:Hrun.
    cbn [fst snd] in *. subst r.
    apply streamWithMultiStepTools_returns in Hrun. subst files.
    now rewrite Hfiles.
Qed.

(** X6.  Over a whole [onMessage], whatever the message carries and however
    the turn ends, [totalSearches] grows by exactly the number of
    [search-start] frames sent to the client. *)
Theorem X6_counter_matches_announced_searches :
  forall fuel data s,
    let s' := snd (onMessage env fuel data s) in
    (totalSearches (state s') - totalSearches (state s))%Z =
    (Z.of_nat (searchStarts (sent s')) - Z.of_nat (searchStarts (sent s)))%Z.
Proof.
  intros fuel data s. cbv zeta.
  destruct (in_messages data) as [msgs|] eqn:Hm.
  - rewrite (onMessage_cases fuel data s Hm).
    pose proof (@streamWithMultiStepTools_R _ env
                  (fun st l => (totalSearches st - Z.of_nat (searchStarts l))%Z =
                               (totalSearches (state s)
                                - Z.of_nat (searchStarts (sent s)))%Z)) as Hacc.
    cbv beta in Hacc. unfold preserves in Hacc.
    specialize (Hacc
      ltac:(intros; rewrite searchStarts_app; cbn; rewrite Nat.add_0_r; assumption)
      ltac:(intros; rewrite searchStarts_app; cbn; rewrite Nat.add_0_r; assumption)
      ltac:(intros; rewrite searchStarts_app; cbn; rewrite Nat.add_0_r; assumption)
      ltac:(intros st l q t H; rewrite searchStarts_app; cbn; lia)
      fuel (received data msgs s)).
    destruct (received_fields data msgs s) as (Ht0 & _ & Hs0 & _).
    rewrite Ht0, Hs0 in Hacc. specialize (Hacc eq_refl).
    destruct (streamWithMultiStepTools env fuel (received data msgs s))
      as [[files|message|] s1]; cbn [snd state sent with_sent with_storage] in *.
    + rewrite !searchStarts_app. destruct (0 <? List.length files)%nat; cbn; lia.
    + rewrite searchStarts_app. cbn. lia.
    + lia.
  - unfold onMessage. rewrite Hm. unfold updateSelectedRag. munfold.
    destruct (in_selectedRag data) as [rag|]; [destruct (Js.truthy rag)|];
      cbn [snd state sent with_state totalSearches]; lia.
Qed.

(** X7.  However a run of [streamWithMultiStepTools] ends, every entry of
    [accumulatedKnowledge] is a text that is not blank, and there is one entry
    per pass, but for the last pass, which may have pushed none: the list is
    never longer than [iteration], hence never longer than 5. *)
Theorem X7_knowledge_entries_are_not_blank_and_bounded :
  forall fuel s,
    let s' := snd (streamWithMultiStepTools env fuel s) in
    Forall notBlank (accumulatedKnowledge s') /\
    List.length (accumulatedKnowledge s') <= iteration s' /\
    iteration s' <= List.length (accumulatedKnowledge s') + 1 /\
    List.length (accumulatedKnowledge s') <= maxIterations.
Proof.
  intros fuel s. cbv zeta.
  destruct (lastMessage (messages s)) as [current|] eqn:Hlast.
  - rewrite (streamWithMultiStepTools_eq env fuel s Hlast).
    set (userQuery := content current).
    destruct (loopEntry_locals env userQuery s) as (Hi0 & Hk0 & _).
    destruct (agentic_loop_knowledge fuel userQuery (loopEntry env userQuery s))
      as (pushed & Hk & Hb & Hm & Hl & Hu).
    pose proof (@agentic_loop_bound _ env fuel userQuery (loopEntry env userQuery s))
      as Hmax.
    rewrite Hi0 in *. rewrite Hk0 in Hk. cbn [app] in Hk.
    specialize (Hmax ltac:(unfold maxIterations; lia)).
    unfold loopAndAnswer, bind.
    destruct (agentic_loop env fuel userQuery _) as [[[]|msg|] s1]; cbn [snd] in *;
      try (rewrite Hk; repeat split; [assumption | lia | lia | lia]).
    pose proof (streamAnswer_keeps env userQuery s1) as (_ & Hi' & Hk').
    cbv zeta in Hi', Hk'.
    unfold answerAndReturn, bind, gets, ret.
    destruct (streamAnswer env userQuery s1) as [[[]|msg|] s2]; cbn [snd] in *;
      rewrite Hk', Hi', Hk; repeat split; try assumption; lia.
  - rewrite (streamWithMultiStepTools_no_message env fuel s Hlast).
    cbn [snd accumulatedKnowledge iteration with_allFiles with_accumulatedKnowledge
           with_iteration List.length].
    repeat split; [constructor | lia | lia | unfold maxIterations; lia].
Qed.

(** X8.  [onMessage] on a message that carries messages only ever appends to
    the history: when it is done, [this.messages] is the history it started
    from (the stored one when there is one, else the one in memory), then the
    incoming messages, then at most one assistant message, whose content is
    not blank. *)
Theorem X8_history_is_append_only :
  forall fuel data msgs s,
    in_messages data = Some msgs ->
    let s' := snd (onMessage env fuel data s) in
    messages s' = (reloaded s ++ msgs)%list \/
    exists answer,
      notBlank answer /\
      messages s' = (reloaded s ++ msgs ++ [mkMessage "assistant" answer])%list.
Proof.
  intros fuel data msgs s Hm. cbv zeta. rewrite (onMessage_cases fuel data s Hm).
  pose proof (streamWithMultiStepTools_history fuel (received data msgs s))
    as (_ & Hh).
  cbv zeta in Hh.
  destruct (received_fields data msgs s) as (_ & _ & _ & Hm0 & _).
  rewrite Hm0 in Hh.
  destruct (streamWithMultiStepTools env fuel (received data msgs s))
    as [[files|message|] s1];
    cbn [fst snd messages with_sent with_storage] in *;
    (destruct Hh as [Hh|(files' & answer & _ & Hb & Hh)];
     [left; exact Hh | right; exists answer; split; [exact Hb|];
                       now rewrite Hh, <- app_assoc]).
Qed.

(** X9.  With fuel for five passes, [onMessage] on a message that carries
    messages never throws, and when it is done what is stored is exactly the
    history in memory: also after a turn that failed, and with the assistant's
    answer after one that did not. *)
Theorem X9_stored_history_equals_memory :
  forall fuel data msgs s,
    maxIterations <= fuel ->
    in_messages data = Some msgs ->
    let s' := snd (onMessage env fuel data s) in
    fst (onMessage env fuel data s) = Ok tt /\
    storage s' = Some (messages s').
Proof.
  intros fuel data msgs s Hfuel Hm. cbv zeta.
  rewrite (onMessage_cases fuel data s Hm).
  pose proof (streamWithMultiStepTools_terminates (received data msgs s) Hfuel) as Hterm.
  pose proof (streamWithMultiStepTools_history fuel (received data msgs s))
    as (Hs & Hh).
  cbv zeta in Hs, Hh.
  destruct (received_fields data msgs s) as (_ & _ & _ & Hm0 & Hst0 & _).
  rewrite Hst0 in Hs. rewrite Hm0 in Hh.
  destruct (streamWithMultiStepTools env fuel (received data msgs s))
    as [[files|message|] s1];
    cbn [fst snd messages storage with_sent with_storage] in *.
  - now split.
  - split; [reflexivity|].
    destruct Hh as [Hh|(files' & answer & Hok & _)]; [congruence | discriminate].
  - contradiction.
Qed.

(** *** Turns that fail, messages without content, reconnecting *)

Lemma loopAndAnswer_aborts userQuery n fuel s0 sk message s2 :
  passes env userQuery n s0 sk ->
  iteration_body env userQuery sk = (Throw message, s2) ->
  S n <= fuel ->
  loopAndAnswer env fuel userQuery s0 = (Throw message, s2).
Proof.
  intros Hp Hbody Hfuel. replace fuel with (n + S (fuel - S n)) by lia.
  unfold loopAndAnswer, bind. rewrite (passes_loop Hp).
  cbn [agentic_loop]. unfold bind. now rewrite Hbody.
Qed.

Lemma passes_history userQuery n s0 sk :
  passes env userQuery n s0 sk -> messages sk = messages s0.
Proof.
  induction 1 as [s|n s0 s1 s2 _ IH Hbody]; [reflexivity|].
  pose proof (iteration_body_history userQuery s1) as (Hm & _).
  rewrite Hbody in Hm. cbn [snd] in Hm. congruence.
Qed.

Lemma onMessage_aborts fuel data msgs s current n sk message s2 :
  in_messages data = Some msgs ->
  lastMessage (reloaded s ++ msgs) = Some current ->
  passes env (content current) n
    (loopEntry env (content current) (received data msgs s)) sk ->
  iteration_body env (content current) sk = (Throw message, s2) ->
  S n <= fuel ->
  onMessage env fuel data s = (Ok tt, with_sent (sent s2 ++ [FError message]) s2) /\
  messages s2 = (reloaded s ++ msgs)%list.
Proof.
  intros Hm Hlast Hp Hbody Hfuel.
  destruct (received_fields data msgs s) as (_ & _ & _ & Hm0 & _).
  rewrite <- Hm0 in Hlast. split.
  - rewrite (onMessage_cases fuel data s Hm).
    rewrite (streamWithMultiStepTools_eq env fuel _ Hlast).
    now rewrite (loopAndAnswer_aborts Hp Hbody Hfuel).
  - pose proof (iteration_body_history (content current) sk) as (Hb & _).
    rewrite Hbody in Hb. cbn [snd] in Hb.
    rewrite Hb, (passes_history Hp).
    destruct (loopEntry_locals env (content current) (received data msgs s))
      as (_ & _ & _ & He). now rewrite He.
Qed.

(** X10.  When the evaluation call rejects in some pass (its output does not
    fit the schema, say), nothing catches it before [onMessage]: the turn ends
    in the state that call left, with the knowledge of the pass already
    pushed; the client gets one [error] frame with the message of the
    rejection as the last frame, and no answer is added to the history. *)
Theorem X10_evaluator_failure_ends_the_turn :
  forall fuel data msgs s current n sk newKnowledge s1 message w,
    in_messages data = Some msgs ->
    lastMessage (reloaded s ++ msgs) = Some current ->
    passes env (content current) n
      (loopEntry env (content current) (received data msgs s)) sk ->
    S n <= fuel ->
    generateKnowledge env
      (knowledgePrompt (content current) (with_iteration (iteration sk + 1) sk))
      (with_iteration (iteration sk + 1) sk) = (Ok newKnowledge, s1) ->
    notBlank newKnowledge ->
    generateObject env
      (EvaluationPrompt (content current) (iteration sk + 1)
         (accumulatedKnowledge sk ++ [newKnowledge]))
      (world s1) = (Rejected message, w) ->
    let s2 := with_world w
                (with_accumulatedKnowledge (accumulatedKnowledge sk ++ [newKnowledge]) s1) in
    onMessage env fuel data s = (Ok tt, with_sent (sent s2 ++ [FError message]) s2) /\
    messages s2 = (reloaded s ++ msgs)%list.
Proof.
  intros fuel data msgs s current n sk newKnowledge s1 message w
         Hm Hlast Hp Hfuel Hgen Ht Hd s2.
  apply (@onMessage_aborts fuel data msgs s current n sk message s2 Hm Hlast Hp);
    [|exact Hfuel].
  pose proof (generateKnowledge_locals env
                (knowledgePrompt (content current) (with_iteration (iteration sk + 1) sk))
                (with_iteration (iteration sk + 1) sk)) as Hl.
  rewrite Hgen in Hl. cbn [snd] in Hl. destruct Hl as (Hi & _ & Hk & _).
  cbn [iteration accumulatedKnowledge with_iteration] in Hi, Hk.
  rewrite <- Hi, <- Hk in Hd.
  rewrite iteration_body_eq. cbv zeta. unfold bind. rewrite Hgen.
  rewrite (afterKnowledge_rejected env (content current) newKnowledge s1 Ht Hd).
  subst s2. now rewrite Hk.
Qed.

(** X11.  When the knowledge generation call itself rejects in some pass,
    the turn ends there too: nothing is pushed onto [accumulatedKnowledge],
    the evaluator is not asked, and the client gets one [error] frame with the
    message of the rejection as the last frame. *)
Theorem X11_extractor_failure_ends_the_turn :
  forall fuel data msgs s current n sk message s1,
    in_messages data = Some msgs ->
    lastMessage (reloaded s ++ msgs) = Some current ->
    passes env (content current) n
      (loopEntry env (content current) (received data msgs s)) sk ->
    S n <= fuel ->
    generateKnowledge env
      (knowledgePrompt (content current) (with_iteration (iteration sk + 1) sk))
      (with_iteration (iteration sk + 1) sk) = (Throw message, s1) ->
    onMessage env fuel data s = (Ok tt, with_sent (sent s1 ++ [FError message]) s1) /\
    messages s1 = (reloaded s ++ msgs)%list /\
    accumulatedKnowledge s1 = accumulatedKnowledge sk /\
    (forall evaluator,
        iteration_body (withGenerateObject evaluator env) (content current) sk =
        iteration_body env (content current) sk).
Proof.
  intros fuel data msgs s current n sk message s1 Hm Hlast Hp Hfuel Hgen.
  assert (Hbody : forall e : Env World,
             generateKnowledge e
               (knowledgePrompt (content current) (with_iteration (iteration sk + 1) sk))
               (with_iteration (iteration sk + 1) sk) = (Throw message, s1) ->
             iteration_body e (content current) sk = (Throw message, s1)).
  { intros e He. rewrite iteration_body_eq. cbv zeta. unfold bind. now rewrite He. }
  destruct (@onMessage_aborts fuel data msgs s current n sk message s1
              Hm Hlast Hp (Hbody env Hgen) Hfuel) as (Hrun & Hmsgs).
  split; [exact Hrun|]. split; [exact Hmsgs|]. split.
  - pose proof (generateKnowledge_locals env
                  (knowledgePrompt (content current) (with_iteration (iteration sk + 1) sk))
                  (with_iteration (iteration sk + 1) sk)) as Hl.
    rewrite Hgen in Hl. cbn [snd] in Hl. now destruct Hl as (_ & _ & Hk & _).
  - intros evaluator. rewrite (Hbody env Hgen). apply Hbody. exact Hgen.
Qed.

(** X12.  A message can select a collection but never clear it: when
    [onMessage] is done, however the turn went, [selectedRag] is the incoming
    one if that is a non-empty string, and the previous one otherwise. *)
Theorem X12_selected_collection_is_set_never_cleared :
  forall fuel data s,
    selectedRag (state (snd (onMessage env fuel data s))) =
    Js.or_else (in_selectedRag data) (selectedRag (state s)).
Proof.
  intros fuel data s. destruct (in_messages data) as [msgs|] eqn:Hm.
  - rewrite (onMessage_cases fuel data s Hm).
    pose proof (@streamWithMultiStepTools_R _ env
                  (fun st _ => selectedRag st =
                               Js.or_else (in_selectedRag data) (selectedRag (state s))))
      as Hkeep.
    cbv beta in Hkeep. unfold preserves in Hkeep.
    specialize (Hkeep ltac:(auto) ltac:(auto) ltac:(auto) ltac:(auto)
                      fuel (received data msgs s)).
    destruct (received_fields data msgs s) as (_ & Hr & _).
    specialize (Hkeep Hr).
    now destruct (streamWithMultiStepTools env fuel (received data msgs s))
      as [[files|message|] s1].
  - unfold onMessage. rewrite Hm. unfold updateSelectedRag, Js.or_else. munfold.
    destruct (in_selectedRag data) as [rag|]; [destruct (Js.truthy rag)|]; reflexivity.
Qed.

(** X13.  A message with an empty [messages] array, arriving when no history
    is stored or in memory, has no current message to read: the turn fails on
    reading [content] of [undefined], the client gets that error in one
    [error] frame and nothing else, no external service is called, and the
    empty history is what is stored. *)
Theorem X13_empty_history_is_reported_as_error :
  forall fuel data s,
    in_messages data = Some [] ->
    reloaded s = [] ->
    let s' := snd (onMessage env fuel data s) in
    fst (onMessage env fuel data s) = Ok tt /\
    sent s' = (sent s ++ [FError undefinedContentMessage])%list /\
    messages s' = [] /\
    storage s' = Some [] /\
    world s' = world s /\
    totalSearches (state s') = totalSearches (state s).
Proof.
  intros fuel data s Hm Hre. cbv zeta. rewrite (onMessage_cases fuel data s Hm).
  destruct (received_fields data [] s) as (Ht & _ & Hs & Hmsgs & Hst & Hw).
  rewrite Hre in Hmsgs, Hst. cbn [app] in Hmsgs, Hst.
  rewrite (streamWithMultiStepTools_no_message env fuel (received data [] s))
    by now rewrite Hmsgs.
  cbn [fst snd sent messages storage world state with_sent with_allFiles
         with_accumulatedKnowledge with_iteration].
  now rewrite Hs, Hmsgs, Hst, Hw, Ht.
Qed.

Lemma onConnect_eq s :
  onConnect s =
    match storage s with
    | Some stored =>
        (Ok (if (0 <? List.length stored)%nat then [FMessageHistory stored] else []),
         with_messages stored s)
    | None => (Ok [], s)
    end.
Proof.
  unfold onConnect. munfold. destruct (storage s) as [stored|]; [|reflexivity].
  cbn [messages with_messages]. now destruct (0 <? List.length stored)%nat.
Qed.

(** X14.  What [onMessage] persists is what [onConnect] restores: on any
    instance that sees the storage a handled message left, [onConnect] sets
    [this.messages] to the history that message ended with, whatever was in
    memory, and sends it to the client in one [message-history] frame, or
    sends nothing when that history is empty. *)
Theorem X14_reconnect_restores_the_history :
  forall fuel data msgs s (later : Sys World),
    maxIterations <= fuel ->
    in_messages data = Some msgs ->
    let s' := snd (onMessage env fuel data s) in
    storage later = storage s' ->
    onConnect later =
      (Ok (if (0 <? List.length (messages s'))%nat
           then [FMessageHistory (messages s')] else []),
       with_messages (messages s') later).
Proof.
  intros fuel data msgs s later Hfuel Hm s' Hst.
  assert (Hs' : storage s' = Some (messages s')).
  { subst s'.
    pose proof (streamWithMultiStepTools_terminates (received data msgs s) Hfuel) as Hterm.
    pose proof (streamWithMultiStepTools_history fuel (received data msgs s)) as (Hs & Hh).
    cbv zeta in Hs, Hh.
    destruct (received_fields data msgs s) as (_ & _ & _ & Hm0 & Hst0 & _).
    rewrite Hst0 in Hs. rewrite Hm0 in Hh.
    rewrite (onMessage_cases fuel data s Hm).
    destruct (streamWithMultiStepTools env fuel (received data msgs s))
      as [[files|message|] s1];
      cbn [fst snd messages storage with_sent with_storage] in *.
    - reflexivity.
    - destruct Hh as [Hh|(files' & answer & Hok & _)]; [congruence | discriminate].
    - contradiction. }
  rewrite onConnect_eq, Hst, Hs'. reflexivity.
Qed.

(** X15.  [onConnect] reads the storage and never writes it.  With nothing
    stored it leaves the history in memory alone and sends nothing; and once
    it has run, running it again sends the same and changes nothing more. *)
Theorem X15_onConnect_reads_only_and_is_idempotent :
  forall s,
    let r := onConnect s in
    storage (snd r) = storage s /\
    sent (snd r) = sent s /\
    (storage s = None -> r = (Ok [], s)) /\
    onConnect (snd r) = r.
Proof.
  intros s. cbv zeta. rewrite !onConnect_eq.
  destruct (storage s) as [stored|] eqn:Hst; cbn [snd storage sent with_messages].
  - rewrite Hst. split; [reflexivity|]. split; [reflexivity|].
    split; [discriminate | reflexivity].
  - rewrite Hst. now repeat split.
Qed.

End TurnExtras.

(* ================================================================== *)
(** ** The [fetch] handler *)

Lemma startsWith_app (p rest : string) : JsText.startsWith p (p ++ rest) = true.
Proof.
  induction p as [|c p IH]; cbn [JsText.startsWith append].
  - now destruct rest.
  - now rewrite Ascii.eqb_refl, IH.
Qed.

Lemma drop_app (p rest : string) : JsText.drop (String.length p) (p ++ rest) = rest.
Proof.
  induction p as [|c p IH]; cbn [JsText.drop String.length append]; [now destruct rest|].
  exact IH.
Qed.

Lemma replaceFirst_unfold (pat rep s : string) :
  JsText.replaceFirst pat rep s =
    if JsText.startsWith pat s then (rep ++ JsText.drop (String.length pat) s)%string
    else match s with
         | EmptyString => EmptyString
         | String c s' => String c (JsText.replaceFirst pat rep s')
         end.
Proof. now destruct s. Qed.

(** Removing a prefix that is there leaves the rest. *)
Lemma replaceFirst_prefix (p rest : string) :
  JsText.replaceFirst p "" (p ++ rest) = rest.
Proof.
  rewrite replaceFirst_unfold, startsWith_app, drop_app. reflexivity.
Qed.

Lemma split_joins (c : ascii) (s : string) :
  JsText.split c s <> [] /\
  Forall (fun segment => ~ contains c segment) (JsText.split c s) /\
  String.concat (String c "") (JsText.split c s) = s.
Proof.
  induction s as [|x s IH]; cbn [JsText.split].
  - split; [discriminate|]. split; [repeat constructor; intros []|reflexivity].
  - destruct IH as (Hne & Hall & Hjoin).
    destruct (Ascii.eqb_spec x c) as [->|Hx].
    + split; [discriminate|]. split.
      * constructor; [intros [] | exact Hall].
      * cbn [String.concat]. destruct (JsText.split c s) as [|seg rest];
          [contradiction|]. cbn [append]. now rewrite Hjoin.
    + destruct (JsText.split c s) as [|seg rest]; [contradiction|].
      split; [discriminate|]. inversion Hall as [|? ? Hseg Hrest]; subst. split.
      * constructor; [|exact Hrest]. intros [H|H]; [contradiction | now apply Hseg].
      * cbn [String.concat]. now destruct rest.
Qed.

Lemma pop_joins (sep : string) (l : list string) :
  l <> [] ->
  exists before segment,
    JsText.pop l = Some segment /\ In segment l /\
    String.concat sep l = (before ++ segment)%string /\
    (before = "" \/ exists before', before = (before' ++ sep)%string).
Proof.
  induction l as [|x l IH]; [contradiction|]. intros _.
  destruct l as [|y l].
  - exists "", x. cbn. repeat split; auto.
  - destruct IH as (before & segment & Hpop & Hin & Hjoin & Hsep); [discriminate|].
    exists (x ++ sep ++ before)%string, segment.
    split; [exact Hpop|]. split; [now right|]. split.
    + change (String.concat sep (x :: y :: l))
        with (x ++ sep ++ String.concat sep (y :: l))%string.
      now rewrite Hjoin, !append_assoc.
    + right. destruct Hsep as [->|(before' & ->)].
      * exists x. now rewrite append_empty_r.
      * exists (x ++ sep ++ before')%string. now rewrite !append_assoc.
Qed.

Lemma stripEnd_snoc (s : string) (c : ascii) :
  JsText.is_http_whitespace c = false ->
  JsText.stripEnd (s ++ String c "") = (s ++ String c "")%string.
Proof.
  intros Hc. induction s as [|x s IH]; cbn [append JsText.stripEnd].
  - now rewrite Hc.
  - rewrite IH. now destruct s.
Qed.

Lemma validHeaderValue_app (s t : string) :
  JsText.validHeaderValue (s ++ t) =
  JsText.validHeaderValue s && JsText.validHeaderValue t.
Proof.
  induction s as [|c s IH]; cbn [append JsText.validHeaderValue]; [reflexivity|].
  now rewrite IH, andb_assoc.
Qed.

(** The value of [Content-Disposition] has nothing to strip at its ends, and
    is accepted exactly when the name in it holds no NUL, LF or CR. *)
Lemma contentDisposition_value (filename : string) :
  let value := "attachment; filename=" ++ JsText.quote ++ filename ++ JsText.quote in
  JsText.normalizeHeaderValue value = value /\
  JsText.validHeaderValue value = JsText.validHeaderValue filename.
Proof.
  cbv zeta. split.
  - unfold JsText.normalizeHeaderValue.
    change (JsText.stripStart
              ("attachment; filename=" ++ JsText.quote ++ filename ++ JsText.quote))
      with ("attachment; filename=" ++ JsText.quote ++ filename ++ JsText.quote)%string.
    unfold JsText.quote at 2 4.
    rewrite <- !append_assoc. now apply stripEnd_snoc.
  - rewrite !validHeaderValue_app.
    change (JsText.validHeaderValue "attachment; filename=") with true.
    change (JsText.validHeaderValue JsText.quote) with true.
    now rewrite andb_true_r.
Qed.

Section WorkerExtras.

Variables Rags Upstream Body : Type.
Implicit Types (b : Bindings Rags Upstream Body) (rest decoded : string).

(** The handler on a path below [/documents/]. *)
Lemma fetch_documents b m rest :
  fetch b (mkRequest ("/documents/" ++ rest) m) =
    if negb (Js.truthy rest) then Ok (JsonError _ _ _ 400 "File path required")
    else
      match decodeURIComponent b rest with
      | Rejected message => Throw message
      | Resolved decoded =>
          match BUCKET_get b decoded with
          | Resolved (Some object) =>
              match downloadHeaders object (downloadName decoded) with
              | Resolved headers => Ok (Download _ _ (body object) headers)
              | Rejected _ => Ok (JsonError _ _ _ 500 "Failed to fetch document")
              end
          | Resolved None => Ok (JsonError _ _ _ 404 "File not found")
          | Rejected _ => Ok (JsonError _ _ _ 500 "Failed to fetch document")
          end
      end.
Proof.
  assert (H1 : String.eqb ("/documents/" ++ rest) "/api/rags" = false)
    by (vm_compute; reflexivity).
  assert (H2 : JsText.startsWith "/agents/" ("/documents/" ++ rest) = false)
    by (vm_compute; reflexivity).
  unfold fetch. cbn [pathname method].
  rewrite H1, H2, startsWith_app, replaceFirst_prefix. reflexivity.
Qed.

(** What the three [headers.set] calls come to. *)
Lemma downloadHeaders_eq (object : R2Object Body) (filename : string) :
  let contentTypeValue :=
    JsText.normalizeHeaderValue
      (Js.or_else (objectContentType object) "application/pdf") in
  downloadHeaders object filename =
    if JsText.validHeaderValue contentTypeValue && JsText.validHeaderValue filename
    then Resolved
           [ ("Content-Type", contentTypeValue);
             ("Content-Disposition",
              "attachment; filename=" ++ JsText.quote ++ filename ++ JsText.quote);
             ("Cache-Control", "public, max-age=31536000") ]
    else Rejected "Invalid header value".
Proof.
  cbv zeta. unfold downloadHeaders, headers_set.
  destruct (contentDisposition_value filename) as (Hnorm & Hvalid). cbv zeta in *.
  rewrite Hnorm, Hvalid.
  destruct (JsText.validHeaderValue (JsText.normalizeHeaderValue _)); [|reflexivity].
  destruct (JsText.validHeaderValue filename); reflexivity.
Qed.

(** X16.  A request below [/documents/], whatever its method, whose path
    decodes and names a stored object.  The content type handed to
    [headers.set] is never empty: it is the stored one when that is a
    non-empty string, and [application/pdf] otherwise.  When that value, with
    the whitespace at its ends removed, and the download name hold no NUL, LF
    or CR, the answer is the body of the object stored under the whole decoded
    path, with that content type, a [Content-Disposition] that names the
    download, and the caching header.  When one of them does hold such a code
    unit, [headers.set] throws inside the [try] and the answer is 500, the
    same as for a failure of the bucket. *)
Theorem X16_download_headers :
  forall b m rest decoded object,
    rest <> "" ->
    decodeURIComponent b rest = Resolved decoded ->
    BUCKET_get b decoded = Resolved (Some object) ->
    let given := Js.or_else (objectContentType object) "application/pdf" in
    let contentTypeValue := JsText.normalizeHeaderValue given in
    given <> "" /\
    (forall t, objectContentType object = Some t -> t <> "" -> given = t) /\
    (objectContentType object = None \/ objectContentType object = Some "" ->
     given = "application/pdf" /\ contentTypeValue = "application/pdf") /\
    (JsText.validHeaderValue contentTypeValue = true ->
     JsText.validHeaderValue (downloadName decoded) = true ->
     fetch b (mkRequest ("/documents/" ++ rest) m) =
       Ok (Download _ _ (body object)
             [ ("Content-Type", contentTypeValue);
               ("Content-Disposition",
                "attachment; filename=" ++ JsText.quote ++ downloadName decoded
                  ++ JsText.quote);
               ("Cache-Control", "public, max-age=31536000") ])) /\
    (JsText.validHeaderValue contentTypeValue = false \/
     JsText.validHeaderValue (downloadName decoded) = false ->
     fetch b (mkRequest ("/documents/" ++ rest) m) =
       Ok (JsonError _ _ _ 500 "Failed to fetch document")).
Proof.
  intros b m rest decoded object Hrest Hdec Hget given contentTypeValue.
  assert (Hfetch : fetch b (mkRequest ("/documents/" ++ rest) m) =
                   match downloadHeaders object (downloadName decoded) with
                   | Resolved headers => Ok (Download _ _ (body object) headers)
                   | Rejected _ => Ok (JsonError _ _ _ 500 "Failed to fetch document")
                   end).
  { rewrite fetch_documents, Hdec, Hget. now destruct rest. }
  rewrite Hfetch, downloadHeaders_eq. cbv zeta. fold given. fold contentTypeValue.
  split; [|split; [|split; [|split]]].
  - subst given. unfold Js.or_else.
    destruct (objectContentType object) as [[|c t]|]; cbn [Js.truthy]; discriminate.
  - intros t Ht Hne. subst given. rewrite Ht. unfold Js.or_else.
    destruct t; [contradiction | reflexivity].
  - intros [H|H]; subst contentTypeValue given; rewrite H; split; reflexivity.
  - intros Hct Hname. now rewrite Hct, Hname.
  - intros [H|H]; rewrite H; [reflexivity | now rewrite andb_false_r].
Qed.

(** X17.  The ways a request below [/documents/] fails, for every method: an
    empty path is refused with 400 before anything is decoded or read; a path
    that does not decode makes the handler throw; a key the bucket does not
    hold gives 404; and a failure of the bucket gives 500 with a fixed text,
    whatever the failure said. *)
Theorem X17_document_request_failures :
  forall b m,
    fetch b (mkRequest "/documents/" m) = Ok (JsonError _ _ _ 400 "File path required") /\
    (forall rest message,
        rest <> "" -> decodeURIComponent b rest = Rejected message ->
        fetch b (mkRequest ("/documents/" ++ rest) m) = Throw message) /\
    (forall rest decoded,
        rest <> "" -> decodeURIComponent b rest = Resolved decoded ->
        BUCKET_get b decoded = Resolved None ->
        fetch b (mkRequest ("/documents/" ++ rest) m) =
          Ok (JsonError _ _ _ 404 "File not found")) /\
    (forall rest decoded failure,
        rest <> "" -> decodeURIComponent b rest = Resolved decoded ->
        BUCKET_get b decoded = Rejected failure ->
        fetch b (mkRequest ("/documents/" ++ rest) m) =
          Ok (JsonError _ _ _ 500 "Failed to fetch document")).
Proof.
  intros b m. split; [exact (fetch_documents b m "")|].
  split; [|split].
  - intros rest message Hrest Hdec. rewrite fetch_documents, Hdec. now destruct rest.
  - intros rest decoded Hrest Hdec Hget. rewrite fetch_documents, Hdec, Hget.
    now destruct rest.
  - intros rest decoded failure Hrest Hdec Hget. rewrite fetch_documents, Hdec, Hget.
    now destruct rest.
Qed.

(** X18.  The name offered for a download is never empty and is the end of
    the decoded path: the part after the last slash.  It holds a slash only
    when the path itself ends in one, and then it is the whole path. *)
Theorem X18_download_name_is_the_last_segment :
  forall decoded,
    decoded <> "" ->
    downloadName decoded <> "" /\
    (exists directory, decoded = (directory ++ downloadName decoded)%string) /\
    (~ contains JsText.slash (downloadName decoded) \/
     downloadName decoded = decoded /\
     exists directory, decoded = (directory ++ String JsText.slash "")%string).
Proof.
  intros decoded Hne. unfold downloadName.
  destruct (split_joins JsText.slash decoded) as (Hnil & Hall & Hjoin).
  destruct (pop_joins (String JsText.slash "") Hnil)
    as (before & segment & Hpop & Hin & Hcat & Hsep).
  rewrite Hjoin in Hcat. rewrite Hpop. unfold Js.or_else.
  destruct segment as [|c segment]; cbn [Js.truthy].
  - rewrite append_empty_r in Hcat. subst before.
    split; [exact Hne|]. split; [now exists ""|]. right. split; [reflexivity|].
    destruct Hsep as [->|(before' & ->)]; [contradiction | now exists before'].
  - split; [discriminate|]. split; [now exists before|]. left.
    rewrite Forall_forall in Hall. now apply Hall.
Qed.

Lemma startsWith_inv (p s : string) :
  JsText.startsWith p s = true -> exists rest, s = (p ++ rest)%string.
Proof.
  revert s. induction p as [|c p IH]; intros s H; [now exists s|].
  destruct s as [|x s]; [discriminate|]. cbn [JsText.startsWith] in H.
  apply andb_prop in H as [Hc Hp]. apply Ascii.eqb_eq in Hc. subst x.
  destruct (IH s Hp) as (rest & ->). now exists rest.
Qed.

(** X19.  The routes do not reach into each other.  A request whose path does
    not start with [/documents/] is answered without the bucket and without
    decoding anything; a request below [/documents/] is answered without the
    list of instances, the agents router and the static assets. *)
Theorem X19_routes_are_isolated :
  forall b b' request,
    (JsText.startsWith "/documents/" (pathname request) = false ->
     autorag_list b' = autorag_list b ->
     routeAgentRequest b' = routeAgentRequest b ->
     ASSETS b' = ASSETS b ->
     fetch b' request = fetch b request) /\
    (JsText.startsWith "/documents/" (pathname request) = true ->
     BUCKET_get b' = BUCKET_get b ->
     decodeURIComponent b' = decodeURIComponent b ->
     fetch b' request = fetch b request).
Proof.
  intros b b' request. split.
  - intros Hno Hl Hr Ha. unfold fetch. rewrite Hno, Hl, Hr, Ha. reflexivity.
  - intros Hyes Hb Hd. destruct request as [p m]. cbn [pathname] in Hyes.
    destruct (startsWith_inv _ _ Hyes) as (rest & ->).
    rewrite !fetch_documents, Hb, Hd. reflexivity.
Qed.

(** X20.  The handler throws only when the agents router, the decoding of a
    document path or the static assets throw, and then with their message.  A
    failure of the list of instances or of the bucket never escapes: it is
    answered with a response. *)
Theorem X20_only_three_calls_can_make_fetch_throw :
  forall b request message,
    fetch b request = Throw message ->
    (JsText.startsWith "/agents/" (pathname request) = true /\
     routeAgentRequest b request = Rejected message) \/
    (exists rest,
        pathname request = ("/documents/" ++ rest)%string /\
        decodeURIComponent b rest = Rejected message) \/
    (exists assets, ASSETS b = Some assets /\ assets request = Rejected message).
Proof.
  intros b request message. unfold fetch.
  destruct (String.eqb (pathname request) "/api/rags" && String.eqb (method request) "GET")%bool.
  { destruct (autorag_list b); discriminate. }
  destruct (JsText.startsWith "/agents/" (pathname request)) eqn:Hagents.
  { destruct (routeAgentRequest b request) as [[response|]|failure] eqn:Hr;
      try discriminate. intros H. inversion H; subst. left. now split. }
  destruct (JsText.startsWith "/documents/" (pathname request)) eqn:Hdocs.
  { destruct (startsWith_inv _ _ Hdocs) as (rest & Hp). rewrite Hp.
    rewrite replaceFirst_prefix.
    destruct (Js.truthy rest); cbn [negb]; [|discriminate].
    destruct (decodeURIComponent b rest) as [decoded|failure] eqn:Hd.
    - destruct (BUCKET_get b decoded) as [[object|]|failure]; try discriminate.
      destruct (downloadHeaders object (downloadName decoded)); discriminate.
    - intros H. inversion H; subst. right. left. now exists rest. }
  destruct (ASSETS b) as [assets|] eqn:Ha; [|discriminate].
  destruct (assets request) as [response|failure] eqn:Hf; [discriminate|].
  intros H. inversion H; subst. right. right. now exists assets.
Qed.

End WorkerExtras.

(* ================================================================== *)
(** ** The frames of a turn, in order *)

Lemma previousUserMessages_snoc (before : list Message) (current : Message) :
  previousUserMessages (before ++ [current]) =
  map content (filter (fun msg => String.eqb (role msg) "user") before).
Proof. unfold previousUserMessages. now rewrite removelast_last. Qed.


Section ProtocolExtras.

Variable World : Type.
Variable env : Env World.
Implicit Types (s : Sys World) (userQuery query : string).

(** X21.  When there are earlier user messages and the rewriting call
    succeeds, the prompt has listed exactly the contents of the user messages
    before the current one, in order (the current message is never among
    them); the loop is entered with the trimmed text as query, also when
    that is empty, and the client has been told the original and the
    rewritten query in one [query-rewrite] frame. *)
Theorem X21_rewritten_query_is_trimmed_and_announced :
  forall fuel s before current text w,
    messages s = (before ++ [current])%list ->
    let previous :=
      map content (filter (fun msg => String.eqb (role msg) "user") before) in
    previous <> [] ->
    generateText env (RewritePrompt previous (content current)) (world s)
      = (Resolved text, w) ->
    let s0 := loopEntry env (content current) s in
    currentSearchQuery s0 = Js.trim text /\
    sent s0 = (sent s ++ [FQueryRewrite (content current) (Js.trim text)])%list /\
    world s0 = w /\
    streamWithMultiStepTools env fuel s = loopAndAnswer env fuel (content current) s0.
Proof.
  intros fuel s before current text w Hm previous Hne Hgen s0.
  assert (Hlast : lastMessage (messages s) = Some current)
    by (rewrite Hm; apply lastMessage_snoc).
  assert (Hrw : rewriteQuery env (content current) (freshLocals (content current) s) =
                (Ok tt,
                 with_sent (sent s ++ [FQueryRewrite (content current) (Js.trim text)])
                   (with_currentSearchQuery (Js.trim text)
                      (with_world w (freshLocals (content current) s))))).
  { rewrite rewriteQuery_eq.
    change (messages (freshLocals (content current) s)) with (messages s).
    change (world (freshLocals (content current) s)) with (world s).
    rewrite Hm, previousUserMessages_snoc. fold previous.
    destruct previous as [|p ps]; [contradiction|]. now rewrite Hgen. }
  subst s0. unfold loopEntry at 1 2 3. rewrite Hrw.
  split; [reflexivity|]. split; [reflexivity|]. split; [reflexivity|].
  exact (@streamWithMultiStepTools_eq _ env fuel s current Hlast).
Qed.



End ProtocolExtras.

(* ================================================================== *)
(** ** The further statements at work on the concrete world *)

Lemma X1_search_without_results_witness :
  let s := Demo.start "docs" [Demo.user "What is policy X?"] in
  fst (performSearch Demo.envNoResults "policy X" s) = Ok noDocuments /\
  sent (snd (performSearch Demo.envNoResults "policy X" s)) = [FSearchStart "policy X"].
Proof.
  intros s.
  destruct (@X1_search_without_results _ Demo.envNoResults "policy X" s
              (mkSearchResults (Some []) None) 2 eq_refl eq_refl (or_intror eq_refl))
    as (Hret & _ & _ & _ & _ & Hsent & _).
  split; [exact Hret | exact Hsent].
Defined.

Lemma X2_started_search_witness :
  let s := Demo.start "docs" [Demo.user "What is policy X?"] in
  totalSearches (state (snd (performSearch Demo.envSearchDown "policy X" s))) = 1%Z /\
  sent (snd (performSearch Demo.envSearchDown "policy X" s)) = [FSearchStart "policy X"].
Proof.
  intros s.
  destruct (@X2_started_search_is_announced_and_counted _ Demo.envSearchDown
              "policy X" s eq_refl) as (_ & Hsent & Hcount & _).
  split; [exact Hcount | exact Hsent].
Defined.

Lemma X3_results_ranked_witness :
  let s := Demo.start "docs" [Demo.user "What is policy X?"] in
  exists payload,
    fst (performSearch Demo.env "policy X" s) = Ok payload /\
    map fr_rank (tr_results payload) = [1; 2; 3] /\
    tr_count payload = Some 3.
Proof.
  intros s.
  destruct (@X3_results_ranked_counted_truncated _ Demo.env "policy X" s
              (mkSearchResults (Some Demo.policyDocs) None) 2 Demo.policyDocs
              eq_refl eq_refl eq_refl)
    as (payload & Hret & _ & _ & Hcount & Hranks & _).
  - discriminate.
  - exists payload. split; [exact Hret|]. split; [exact Hranks | exact Hcount].
Defined.

Lemma X5_without_collection_witness :
  let s := Demo.start "" [Demo.user "What is policy X?"] in
  state (snd (streamWithMultiStepTools Demo.env 5 s)) = state s /\
  allFiles (snd (streamWithMultiStepTools Demo.env 5 s)) = [].
Proof.
  intros s.
  destruct (X5_without_collection_nothing_is_searched Demo.env 5 s eq_refl)
    as (Hstate & _ & Hfiles & _).
  split; [exact Hstate | exact Hfiles].
Defined.

Lemma X8_history_is_append_only_witness :
  let s := Demo.start "docs" [Demo.user "What is policy X?"] in
  let data := mkIncoming None (Some [Demo.user "and clause Y?"]) in
  let s' := snd (onMessage (Demo.envSatisfiedAt 1) 5 data s) in
  messages s' = [Demo.user "What is policy X?"; Demo.user "and clause Y?"] \/
  exists answer,
    notBlank answer /\
    messages s' =
      [Demo.user "What is policy X?"; Demo.user "and clause Y?";
       Demo.assistant answer].
Proof.
  intros s data s'.
  exact (@X8_history_is_append_only _ (Demo.envSatisfiedAt 1) 5 data
           [Demo.user "and clause Y?"] s eq_refl).
Defined.

Lemma X9_stored_history_witness :
  let s := Demo.start "" [Demo.user "What is policy X?"] in
  let data := mkIncoming None (Some [Demo.user "and clause Y?"]) in
  let s' := snd (onMessage Demo.envRethrow 5 data s) in
  storage s' = Some (messages s').
Proof.
  intros s data s'.
  destruct (@X9_stored_history_equals_memory _ Demo.envRethrow 5 data
              [Demo.user "and clause Y?"] s (le_n _) eq_refl) as (_ & H).
  exact H.
Defined.

Lemma X10_evaluator_failure_witness :
  let s := Demo.start "docs" [] in
  let data := mkIncoming None (Some [Demo.user "What is policy X?"]) in
  sent (snd (onMessage Demo.envSchemaDown 5 data s)) =
    [FSearchStart "What is policy X?"; FError "schema mismatch"].
Proof.
  intros s data.
  set (e := Demo.envSchemaDown).
  set (s0 := loopEntry e "What is policy X?"
               (received data [Demo.user "What is policy X?"] s)).
  set (p := knowledgePrompt "What is policy X?" (with_iteration (iteration s0 + 1) s0)).
  set (s1 := snd (generateKnowledge e p (with_iteration (iteration s0 + 1) s0))).
  destruct (@X10_evaluator_failure_ends_the_turn _ e 5 data
              [Demo.user "What is policy X?"] s (Demo.user "What is policy X?")
              0 s0 "- X applies (policy-x.pdf)" s1 "schema mismatch" (S (world s1)))
    as (Hrun & _).
  - reflexivity.
  - reflexivity.
  - constructor.
  - lia.
  - vm_compute. reflexivity.
  - reflexivity.
  - vm_compute. reflexivity.
  - rewrite Hrun. vm_compute. reflexivity.
Defined.

Lemma X11_extractor_failure_witness :
  let s := Demo.start "docs" [] in
  let data := mkIncoming None (Some [Demo.user "What is policy X?"]) in
  sent (snd (onMessage Demo.envModelDown 5 data s)) = [FError "model overloaded"].
Proof.
  intros s data.
  set (e := Demo.envModelDown).
  set (s0 := loopEntry e "What is policy X?"
               (received data [Demo.user "What is policy X?"] s)).
  set (p := knowledgePrompt "What is policy X?" (with_iteration (iteration s0 + 1) s0)).
  set (s1 := snd (generateKnowledge e p (with_iteration (iteration s0 + 1) s0))).
  destruct (@X11_extractor_failure_ends_the_turn _ e 5 data
              [Demo.user "What is policy X?"] s (Demo.user "What is policy X?")
              0 s0 "model overloaded" s1)
    as (Hrun & _).
  - reflexivity.
  - reflexivity.
  - constructor.
  - lia.
  - vm_compute. reflexivity.
  - rewrite Hrun. vm_compute. reflexivity.
Defined.

Lemma X13_empty_history_witness :
  let s := Demo.start "docs" [] in
  sent (snd (onMessage Demo.env 5 (mkIncoming None (Some [])) s)) =
    [FError undefinedContentMessage].
Proof.
  intros s.
  destruct (@X13_empty_history_is_reported_as_error _ Demo.env 5
              (mkIncoming None (Some [])) s eq_refl eq_refl)
    as (_ & Hsent & _).
  exact Hsent.
Defined.

Lemma X14_reconnect_witness :
  let s := Demo.start "docs" [] in
  let data := mkIncoming None (Some [Demo.user "What is policy X?"]) in
  let s' := snd (onMessage (Demo.envSatisfiedAt 1) 5 data s) in
  fst (onConnect (with_messages [] s')) =
    Ok [FMessageHistory [Demo.user "What is policy X?"; Demo.assistant "X applies."]].
Proof.
  intros s data s'.
  rewrite (@X14_reconnect_restores_the_history _ (Demo.envSatisfiedAt 1) 5 data
             [Demo.user "What is policy X?"] s (with_messages [] s') (le_n _) eq_refl
             eq_refl).
  vm_compute. reflexivity.
Defined.

Lemma X15_onConnect_witness :
  let s := Demo.start "docs" [Demo.user "What is policy X?"] in
  onConnect s = (Ok [], s).
Proof.
  intros s.
  destruct (X15_onConnect_reads_only_and_is_idempotent s) as (_ & _ & Hnone & _).
  exact (Hnone eq_refl).
Defined.

Lemma X16_download_headers_witness :
  fetch Demo.bindingsDecoding
    (mkRequest "/documents/reports/2024/policy%20x.pdf" "GET") =
    Ok (Download _ _ "%PDF-1.7"
          [ ("Content-Type", "application/pdf");
            ("Content-Disposition",
             "attachment; filename=" ++ JsText.quote ++ "policy x.pdf" ++ JsText.quote);
            ("Cache-Control", "public, max-age=31536000") ]) /\
  fetch Demo.bindingsDecoding (mkRequest "/documents/notes/a%0Ab.pdf" "GET") =
    Ok (JsonError _ _ _ 500 "Failed to fetch document").
Proof.
  split.
  - destruct (@X16_download_headers _ _ _ Demo.bindingsDecoding "GET"
                "reports/2024/policy%20x.pdf" "reports/2024/policy x.pdf" Demo.report)
      as (_ & _ & _ & Hsent & _).
    + discriminate.
    + reflexivity.
    + reflexivity.
    + apply Hsent; reflexivity.
  - destruct (@X16_download_headers _ _ _ Demo.bindingsDecoding "GET"
                "notes/a%0Ab.pdf" (Demo.decode "notes/a%0Ab.pdf") Demo.report)
      as (_ & _ & _ & _ & Hrefused).
    + discriminate.
    + reflexivity.
    + reflexivity.
    + apply Hrefused. right. reflexivity.
Defined.

Lemma X17_document_request_failures_witness :
  fetch Demo.bindings (mkRequest "/documents/" "DELETE") =
    Ok (JsonError _ _ _ 400 "File path required") /\
  fetch Demo.bindings (mkRequest "/documents/missing.pdf" "GET") =
    Ok (JsonError _ _ _ 404 "File not found") /\
  fetch Demo.bindingsBrokenRouter (mkRequest "/documents/a.pdf" "GET") =
    Ok (JsonError _ _ _ 500 "Failed to fetch document").
Proof.
  destruct (X17_document_request_failures Demo.bindings "DELETE") as (Hempty & _).
  destruct (X17_document_request_failures Demo.bindings "GET") as (_ & _ & Hmissing & _).
  destruct (X17_document_request_failures Demo.bindingsBrokenRouter "GET")
    as (_ & _ & _ & Hdown).
  split; [exact Hempty|]. split.
  - apply (Hmissing "missing.pdf" "missing.pdf"); [discriminate | reflexivity | reflexivity].
  - apply (Hdown "a.pdf" "a.pdf" "bucket unavailable");
      [discriminate | reflexivity | reflexivity].
Defined.

Lemma X18_download_name_witness :
  downloadName "reports/2024/policy x.pdf" <> "" /\
  exists directory,
    "reports/2024/policy x.pdf" =
    (directory ++ downloadName "reports/2024/policy x.pdf")%string.
Proof.
  destruct (@X18_download_name_is_the_last_segment "reports/2024/policy x.pdf")
    as (Hne & Hdir & _).
  - discriminate.
  - split; [exact Hne | exact Hdir].
Defined.

Lemma X19_routes_are_isolated_witness :
  fetch Demo.bindingsBrokenRouter (mkRequest "/documents/missing.pdf" "GET") =
  fetch (mkBindings (Resolved ["docs"]) (fun _ => Resolved None)
           (fun _ => Rejected "bucket unavailable") None (fun path => Resolved path))
    (mkRequest "/documents/missing.pdf" "GET").
Proof.
  destruct (X19_routes_are_isolated
              (mkBindings (Resolved ["docs"]) (fun _ => Resolved None)
                 (fun _ : string => @Rejected (option (R2Object string)) "bucket unavailable")
                 (@None (Request -> Reply string)) (fun path => Resolved path))
              Demo.bindingsBrokenRouter (mkRequest "/documents/missing.pdf" "GET"))
    as (_ & Hdocs).
  apply Hdocs; reflexivity.
Defined.

Lemma X20_fetch_throws_witness :
  JsText.startsWith "/agents/" "/agents/search-agent/room-1" = true /\
  fetch Demo.bindingsBrokenRouter (mkRequest "/agents/search-agent/room-1" "GET") =
    Throw "agent crashed".
Proof.
  destruct (@X20_only_three_calls_can_make_fetch_throw _ _ _ Demo.bindingsBrokenRouter
              (mkRequest "/agents/search-agent/room-1" "GET") "agent crashed" eq_refl)
    as [(Hpath & _)|[(rest & Hp & _)|(assets & Ha & _)]].
  - split; [exact Hpath | reflexivity].
  - split; reflexivity.
  - discriminate.
Defined.

Lemma X21_rewritten_query_witness :
  let s := Demo.start "docs"
             [Demo.user "What is policy X?"; Demo.assistant "X applies.";
              Demo.user "and clause Y?"] in
  let s0 := loopEntry Demo.env "and clause Y?" s in
  currentSearchQuery s0 = "policy X, clause Y" /\
  sent s0 = [FQueryRewrite "and clause Y?" "policy X, clause Y"].
Proof.
  intros s s0.
  destruct (@X21_rewritten_query_is_trimmed_and_announced _ Demo.env 5 s
              [Demo.user "What is policy X?"; Demo.assistant "X applies."]
              (Demo.user "and clause Y?") "  policy X, clause Y " 1)
    as (Hquery & Hsent & _).
  - reflexivity.
  - discriminate.
  - reflexivity.
  - split; [exact Hquery | exact Hsent].
Defined.

